(** * TradeSimulator backend: order book, cost models and orchestrator

    A shallow embedding of [src/backend/server.py] and the properties its
    specification states about it.

    Numbers.  Python floats are idealised as real numbers ([R]): rounding,
    infinities and NaN are not represented.  The statements over this model
    are about what the code computes as written: its expressions, its
    control flow, its handlers and the state it leaves.  The two models
    whose results the specification bounds, [calculate_impact] and
    [estimate], are embedded a second time in IEEE 754 binary64
    ([Binary64]), where the bounds are settled.  What Python does by raising
    is kept: [float()] on a bad token raises [ValueError], the division of
    two Python floats raises [ZeroDivisionError] on a zero divisor, and every
    [try ... except Exception] of the source is a handler in the model.
    Clock readings ([time.time()], [datetime.now()]) are inputs of the
    functions that read them.  The NumPy functions the source calls are the
    members of the class [NumPy]; [real_numpy] is their real-valued instance. *)

From Stdlib Require Import Floats.
From Stdlib Require Import Reals Lra Lia List String Ascii ZArith Bool.
From Stdlib Require Import Permutation.
Import ListNotations.
Open Scope string_scope.
Open Scope list_scope.
Open Scope R_scope.

(** ** Python values, exceptions and arithmetic *)

Inductive exn : Type :=
| KeyError (key : string)
| ValueError (token : string)
| ZeroDivisionError.

(** [str(e)], the message a handler reports.  The text of a [KeyError] or a
    [ValueError] ends in the [repr] of the key or token; it is written here
    for a plain one, which [repr] puts between apostrophes.  The endpoints,
    which report the text for any token, use [error_text] instead. *)
Definition str (e : exn) : string :=
  match e with
  | KeyError key => String.append "'" (String.append key "'")
  | ValueError token =>
      String.append "could not convert string to float: '" (String.append token "'")
  | ZeroDivisionError => "float division by zero"
  end.

Inductive result (A : Type) : Type :=
| Ok (a : A)
| Raise (e : exn).
Arguments Ok {A} a.
Arguments Raise {A} e.

Definition bind {A B : Type} (r : result A) (k : A -> result B) : result B :=
  match r with
  | Ok a => k a
  | Raise e => Raise e
  end.

Declare Scope py_scope.
Delimit Scope py_scope with py.
Notation "x <- c ;; k" := (bind c (fun x => k))
  (at level 61, c at next level, right associativity) : py_scope.
Notation "' pat <- c ;; k" := (bind c (fun x => match x with pat => k end))
  (at level 61, pat pattern, c at next level, right associativity) : py_scope.
Open Scope py_scope.

(** [try: return body  except Exception: return fallback]. *)
Definition try_except {A : Type} (body : result A) (fallback : A) : A :=
  match body with
  | Ok a => a
  | Raise _ => fallback
  end.

(** [x / y] on Python floats. *)
Definition truediv (x y : R) : result R :=
  if Req_dec_T y 0 then Raise ZeroDivisionError else Ok (x / y).

(** The builtins [max(a, b)] and [min(a, b)]: the first argument is kept
    unless the second is strictly greater (resp. smaller). *)
Definition py_max (a b : R) : R := if Rlt_dec a b then b else a.
Definition py_min (a b : R) : R := if Rlt_dec b a then b else a.

(** [sum(xs)]: a left fold from [0]. *)
Definition py_sum (xs : list R) : R := fold_left Rplus xs 0.

(** A [dict] with string keys, as an association list. *)
Section Dict.
Context {V : Type}.

Fixpoint dict_find (d : list (string * V)) (key : string) : option V :=
  match d with
  | [] => None
  | (k, v) :: d' => if String.eqb k key then Some v else dict_find d' key
  end.

(** [d[key]] *)
Definition dict_get (d : list (string * V)) (key : string) : result V :=
  match dict_find d key with
  | Some v => Ok v
  | None => Raise (KeyError key)
  end.

(** [d.get(key, default)] *)
Definition dict_get_default (d : list (string * V)) (key : string) (default : V) : V :=
  match dict_find d key with
  | Some v => v
  | None => default
  end.

(** [d[key] = v] *)
Fixpoint dict_set (d : list (string * V)) (key : string) (v : V) : list (string * V) :=
  match d with
  | [] => [(key, v)]
  | (k, v0) :: d' =>
      if String.eqb k key then (k, v) :: d' else (k, v0) :: dict_set d' key v
  end.

(** [d.update(other)] *)
Definition dict_update (d other : list (string * V)) : list (string * V) :=
  fold_left (fun acc kv => dict_set acc (fst kv) (snd kv)) other d.
End Dict.

(** The NumPy functions of the source, on the real line. *)
Class NumPy : Type := {
  np_sqrt : R -> R;
  np_tanh : R -> R;
  np_log : R -> R;
  np_exp : R -> R
}.

Definition real_numpy : NumPy :=
  {| np_sqrt := sqrt; np_tanh := tanh; np_log := ln; np_exp := exp |}.

(** ** Decimal tokens

    [float()] itself is a parameter of [OrderBook.update].  [decimal_float]
    is the instance used on concrete feeds: it reads an optional sign, digits
    and an optional fractional part, and refuses every other string. *)

Definition digit_of (c : ascii) : option Z :=
  let n := Z.of_nat (nat_of_ascii c) in
  if ((48 <=? n) && (n <=? 57))%Z then Some (n - 48)%Z else None.

Fixpoint read_digits (s : string) (acc : Z) (count : nat) : Z * nat * string :=
  match s with
  | String c rest =>
      match digit_of c with
      | Some d => read_digits rest (10 * acc + d)%Z (S count)
      | None => (acc, count, s)
      end
  | EmptyString => (acc, count, s)
  end.

(** Mantissa and number of fractional digits of a plain decimal token. *)
Definition read_decimal (s : string) : option (Z * nat) :=
  let '(negative, s1) :=
    match s with
    | String "-" rest => (true, rest)
    | String "+" rest => (false, rest)
    | _ => (false, s)
    end in
  let '(int_part, n_int, s2) := read_digits s1 0%Z 0%nat in
  let '(mantissa, n_frac, s3) :=
    match s2 with
    | String "." rest => read_digits rest int_part 0%nat
    | _ => (int_part, 0%nat, s2)
    end in
  match s3 with
  | EmptyString =>
      if (n_int + n_frac =? 0)%nat then None
      else Some (if negative then (- mantissa)%Z else mantissa, n_frac)
  | String _ _ => None
  end.

Definition scale_decimal (mantissa : Z) (n_frac : nat) : R :=
  match n_frac with
  | O => IZR mantissa
  | S _ => IZR mantissa / IZR (10 ^ Z.of_nat n_frac)
  end.

Definition decimal_float (s : string) : option R :=
  match read_decimal s with
  | Some (mantissa, n_frac) => Some (scale_decimal mantissa n_frac)
  | None => None
  end.

(** ** The feed record consumed by [OrderBook.update] *)

Record FeedRecord : Type := {
  feed_timestamp : string;
  feed_asks : list (string * string);
  feed_bids : list (string * string)
}.

(** ** class OrderBook *)

Module OrderBook.

Record t : Type := mk {
  exchange : string;
  symbol : string;
  asks : list (R * R);
  bids : list (R * R);
  timestamp : string;
  mid_price : R;
  spread_pct : R;
  ask_depth : R;
  bid_depth : R;
  last_update_time : R
}.

(** [__init__] *)
Definition init (exchange symbol : string) : t :=
  mk exchange symbol [] [] "" 0 0 0 0 0.

Definition set_timestamp (v : string) (s : t) : t :=
  mk (exchange s) (symbol s) (asks s) (bids s) v (mid_price s)
     (spread_pct s) (ask_depth s) (bid_depth s) (last_update_time s).
Definition set_asks (v : list (R * R)) (s : t) : t :=
  mk (exchange s) (symbol s) v (bids s) (timestamp s) (mid_price s)
     (spread_pct s) (ask_depth s) (bid_depth s) (last_update_time s).
Definition set_bids (v : list (R * R)) (s : t) : t :=
  mk (exchange s) (symbol s) (asks s) v (timestamp s) (mid_price s)
     (spread_pct s) (ask_depth s) (bid_depth s) (last_update_time s).
Definition set_mid_price (v : R) (s : t) : t :=
  mk (exchange s) (symbol s) (asks s) (bids s) (timestamp s) v
     (spread_pct s) (ask_depth s) (bid_depth s) (last_update_time s).
Definition set_spread_pct (v : R) (s : t) : t :=
  mk (exchange s) (symbol s) (asks s) (bids s) (timestamp s) (mid_price s)
     v (ask_depth s) (bid_depth s) (last_update_time s).
Definition set_ask_depth (v : R) (s : t) : t :=
  mk (exchange s) (symbol s) (asks s) (bids s) (timestamp s) (mid_price s)
     (spread_pct s) v (bid_depth s) (last_update_time s).
Definition set_bid_depth (v : R) (s : t) : t :=
  mk (exchange s) (symbol s) (asks s) (bids s) (timestamp s) (mid_price s)
     (spread_pct s) (ask_depth s) v (last_update_time s).
Definition set_last_update_time (v : R) (s : t) : t :=
  mk (exchange s) (symbol s) (asks s) (bids s) (timestamp s) (mid_price s)
     (spread_pct s) (ask_depth s) (bid_depth s) v.

(** Statements that mutate [self] and may raise: the object as it is when
    the statement ends or raises, and the outcome.  An assignment made
    before a later statement raises stays made. *)
Definition M (A : Type) : Type := t -> t * result A.

Definition ret {A : Type} (a : A) : M A := fun s => (s, Ok a).
Definition seq {A B : Type} (m : M A) (k : A -> M B) : M B :=
  fun s =>
    match m s with
    | (s', Ok a) => k a s'
    | (s', Raise e) => (s', Raise e)
    end.
Definition lift {A : Type} (r : result A) : M A := fun s => (s, r).
Definition read {A : Type} (field : t -> A) : M A := fun s => (s, Ok (field s)).
Definition assign {A : Type} (setter : A -> t -> t) (v : A) : M unit :=
  fun s => (setter v s, Ok tt).

Declare Scope self_scope.
Delimit Scope self_scope with self.
Notation "x <- m ;; k" := (seq m (fun x => k))
  (at level 61, m at next level, right associativity) : self_scope.
Notation "m ;; k" := (seq m (fun _ => k))
  (at level 61, right associativity) : self_scope.

(** [list.sort(key=lambda x: x[0], reverse=...)]: a stable sort on the
    price.  [x] is put in front of the first level that does not come
    strictly before it, so levels of equal price keep their order. *)
Definition comes_before (reverse : bool) (a b : R) : bool :=
  if reverse then (if Rlt_dec b a then true else false)
  else (if Rlt_dec a b then true else false).

Fixpoint insert_level (reverse : bool) (x : R * R) (l : list (R * R)) : list (R * R) :=
  match l with
  | [] => [x]
  | y :: l' =>
      if comes_before reverse (fst y) (fst x) then y :: insert_level reverse x l'
      else x :: y :: l'
  end.

Definition sort_levels (reverse : bool) (l : list (R * R)) : list (R * R) :=
  fold_right (insert_level reverse) [] l.

(** [sum(size for _, size in levels[:10])] *)
Definition depth (levels : list (R * R)) : R :=
  py_sum (map snd (firstn 10 levels)).

Section Update.
(** The builtin [float] on a token of the feed. *)
Variable pyfloat : string -> option R.

Definition float (token : string) : result R :=
  match pyfloat token with
  | Some x => Ok x
  | None => Raise (ValueError token)
  end.

(** [[(float(price), float(size)) for price, size in levels]] *)
Fixpoint parse_levels (levels : list (string * string)) : result (list (R * R)) :=
  match levels with
  | [] => Ok []
  | (price, size) :: rest =>
      (p <- float price ;;
       s <- float size ;;
       parsed <- parse_levels rest ;;
       Ok ((p, s) :: parsed))%py
  end.

(** The body of the [try] of [update]. *)
Definition update_body (data : FeedRecord) (now : R) : M bool :=
  (assign set_timestamp (feed_timestamp data) ;;
   parsed_asks <- lift (parse_levels (feed_asks data)) ;;
   assign set_asks parsed_asks ;;
   parsed_bids <- lift (parse_levels (feed_bids data)) ;;
   assign set_bids parsed_bids ;;
   unsorted_asks <- read asks ;;
   assign set_asks (sort_levels false unsorted_asks) ;;
   unsorted_bids <- read bids ;;
   assign set_bids (sort_levels true unsorted_bids) ;;
   sorted_asks <- read asks ;;
   sorted_bids <- read bids ;;
   match sorted_asks, sorted_bids with
   | (best_ask, _) :: _, (best_bid, _) :: _ =>
       assign set_mid_price ((best_ask + best_bid) / 2) ;;
       mid <- read mid_price ;;
       ratio <- lift (truediv (best_ask - best_bid) mid) ;;
       assign set_spread_pct (ratio * 100)
   | _, _ => ret tt
   end ;;
   top_asks <- read asks ;;
   assign set_ask_depth (depth top_asks) ;;
   top_bids <- read bids ;;
   assign set_bid_depth (depth top_bids) ;;
   assign set_last_update_time now ;;
   ret true)%self.

(** [update(self, data)]: the object after the call and the value
    returned.  [now] is the reading of [time.time()]. *)
Definition update (self : t) (data : FeedRecord) (now : R) : t * bool :=
  match update_body data now self with
  | (self', Ok accepted) => (self', accepted)
  | (self', Raise _) => (self', false)
  end.
End Update.

End OrderBook.

(** ** class AlmgrenChrissModel *)

Module AlmgrenChrissModel.

Definition default_params : list (string * R) :=
  [("gamma", 0.1); ("eta", 0.01); ("epsilon", 0.005)].

Section Model.
Context {np : NumPy}.

(** [calculate_impact(self, sigma, quantity, price, time_horizon, **kwargs)] *)
Definition calculate_impact (sigma quantity price time_horizon : R)
    (kwargs : list (string * R)) : R :=
  try_except
    (let params := dict_update default_params kwargs in
     gamma <- dict_get params "gamma" ;;
     eta <- dict_get params "eta" ;;
     epsilon <- dict_get params "epsilon" ;;
     variance_ratio <- truediv (gamma * sigma * sigma) (2 * eta) ;;
     let kappa := np_sqrt variance_ratio in
     tau <- truediv time_horizon (py_max 0.01 quantity) ;;
     temporary_impact <- truediv (epsilon * quantity) time_horizon ;;
     let permanent_impact := eta * quantity * np_tanh (kappa * tau) in
     let total_impact := temporary_impact + permanent_impact in
     Ok (py_min (py_max total_impact 0) 0.1))
    0.001.
End Model.

End AlmgrenChrissModel.

(** ** class SlippageModel *)

Module SlippageModel.

(** The [for price, size in levels] loop: [remaining_qty] and [total_cost]
    when the loop ends, by [break] or by running out of levels. *)
Fixpoint walk_levels (levels : list (R * R)) (remaining_qty total_cost : R)
    : result (R * R) :=
  match levels with
  | [] => Ok (remaining_qty, total_cost)
  | (price, size) :: rest =>
      let level_value_usd := price * size in
      if Rle_dec remaining_qty level_value_usd then
        proportion <- truediv remaining_qty level_value_usd ;;
        Ok (0, total_cost + price * proportion * remaining_qty)
      else
        walk_levels rest (remaining_qty - level_value_usd) (total_cost + price * size)
  end.

(** [estimate(self, orderbook, quantity, is_buy)] *)
Definition estimate (orderbook : OrderBook.t) (quantity : R) (is_buy : bool) : R :=
  try_except
    (let levels := if is_buy then OrderBook.asks orderbook else OrderBook.bids orderbook in
     match levels with
     | [] => Ok 0
     | first :: others =>
         '(remaining_qty, total_cost) <- walk_levels levels quantity 0 ;;
         let total_cost :=
           if Rlt_dec 0 remaining_qty then
             let last_price := fst (last others first) in
             total_cost + last_price * remaining_qty * 1.01
           else total_cost in
         effective_price <-
           (if Rlt_dec 0 quantity then truediv total_cost quantity else Ok 0) ;;
         slippage <-
           (if Rlt_dec 0 (OrderBook.mid_price orderbook) then
              ratio <- truediv effective_price (OrderBook.mid_price orderbook) ;;
              Ok (if is_buy then ratio - 1 else 1 - ratio)
            else Ok 0) ;;
         let spread_factor := OrderBook.spread_pct orderbook * 0.1 in
         let depth :=
           if is_buy then OrderBook.ask_depth orderbook
           else OrderBook.bid_depth orderbook in
         inverse_depth <- truediv 1 (depth + 1) ;;
         let depth_factor := inverse_depth * 0.05 in
         let adjusted_slippage := slippage + spread_factor + depth_factor in
         Ok (py_max (py_min adjusted_slippage 0.05) 0)
     end)
    0.001.

End SlippageModel.

(** ** class MakerTakerModel *)

Module MakerTakerModel.

Definition weights : list (string * R) :=
  [("relative_size", -2.5); ("spread", 1.5); ("imbalance", -1.0); ("intercept", 0.2)].

Section Model.
Context {np : NumPy}.

(** [predict(self, orderbook, quantity)].  The last division has a NumPy
    scalar as divisor and does not raise. *)
Definition predict (orderbook : OrderBook.t) (quantity : R) : R :=
  try_except
    (let total_depth := OrderBook.ask_depth orderbook + OrderBook.bid_depth orderbook in
     size_ratio <- truediv quantity (py_max total_depth 0.001) ;;
     let relative_size := py_min size_ratio 1 in
     let spread_feature := py_min (OrderBook.spread_pct orderbook / 0.1) 1 in
     depth_ratio <- truediv (OrderBook.ask_depth orderbook)
                            (py_max (OrderBook.bid_depth orderbook) 0.00001) ;;
     let imbalance_feature := py_min (Rabs (np_log depth_ratio) / 3) 1 in
     w_intercept <- dict_get weights "intercept" ;;
     w_relative_size <- dict_get weights "relative_size" ;;
     w_spread <- dict_get weights "spread" ;;
     w_imbalance <- dict_get weights "imbalance" ;;
     let logit :=
       w_intercept + w_relative_size * relative_size
       + w_spread * spread_feature + w_imbalance * imbalance_feature in
     let maker_proportion := 1 / (1 + np_exp (- logit)) in
     Ok (py_max (py_min maker_proportion 1) 0))
    0.2.
End Model.

End MakerTakerModel.

(** ** class FeeCalculator *)

Module FeeCalculator.

(** The OKX fee tiers: [(maker, taker)] for each tier. *)
Definition fee_tiers : list (string * (R * R)) :=
  [("VIP0", (0.0008, 0.0010));
   ("VIP1", (0.0006, 0.0008));
   ("VIP2", (0.0004, 0.0006));
   ("VIP3", (0.0002, 0.0004));
   ("VIP4", (0.0000, 0.0002));
   ("VIP5", (-0.0001, 0.0001))].

(** [calculate(self, fee_tier, quantity, maker_proportion)] *)
Definition calculate (fee_tier : string) (quantity maker_proportion : R) : R :=
  try_except
    (default_tier <- dict_get fee_tiers "VIP0" ;;
     let tier := dict_get_default fee_tiers fee_tier default_tier in
     let maker_fee := fst tier in
     let taker_fee := snd tier in
     let fee :=
       quantity * ((maker_fee * maker_proportion)
                   + (taker_fee * (1 - maker_proportion))) in
     Ok fee)
    (quantity * 0.001).

End FeeCalculator.

(** ** class PerformanceTracker *)

Module PerformanceTracker.

Record t : Type := mk {
  window_size : Z;
  processing_times : list R;
  update_times : list R;
  last_timestamp : R
}.

(** [__init__(self, window_size)]; [now] is the reading of [time.time()]. *)
Definition init (window_size : Z) (now : R) : t := mk window_size [] [] now.

(** [xs.append(x)] followed by [if len(xs) > window_size: xs.pop(0)]. *)
Definition push (window_size : Z) (xs : list R) (x : R) : list R :=
  let appended := xs ++ [x] in
  if (Z.of_nat (List.length appended) >? window_size)%Z then tl appended else appended.

(** [track_processing(self, duration_ms)] *)
Definition track_processing (self : t) (duration_ms : R) : t :=
  mk (window_size self)
     (push (window_size self) (processing_times self) duration_ms)
     (update_times self)
     (last_timestamp self).

(** [track_update(self)]; [now] is the reading of [time.time()]. *)
Definition track_update (self : t) (now : R) : t :=
  let update_time := now - last_timestamp self in
  mk (window_size self)
     (processing_times self)
     (push (window_size self) (update_times self) update_time)
     now.

(** [get_metrics(self)]: average processing time, average update interval
    and updates per second.  [len] is never zero after [max(len, 1)]. *)
Definition get_metrics (self : t) : R * R * R :=
  let avg_processing :=
    py_sum (processing_times self)
    / py_max (INR (List.length (processing_times self))) 1 in
  let avg_update :=
    py_sum (update_times self)
    / py_max (INR (List.length (update_times self))) 1 in
  (avg_processing, avg_update, 1 / py_max avg_update 0.001).

End PerformanceTracker.

(** ** class TradeSimulator *)

Record CostEstimate : Type := {
  expected_slippage : R;
  expected_fees : R;
  market_impact : R;
  net_cost : R;
  maker_taker_proportion : R;
  internal_latency : R;
  estimate_timestamp : string
}.

(** The dictionary [simulate] returns: [{"error": msg}] or the estimate. *)
Inductive SimulationResult : Type :=
| Error (msg : string)
| Estimate (c : CostEstimate).

Module TradeSimulator.

(** [orderbook] is [None] or the order book the simulator reads; the four
    models carry no state. *)
Record t : Type := mk {
  orderbook : option OrderBook.t;
  performance_tracker : PerformanceTracker.t
}.

(** [__init__]; [now] is the clock reading taken by the tracker. *)
Definition init (now : R) : t := mk None (PerformanceTracker.init 100 now).

(** [set_orderbook(self, orderbook)] *)
Definition set_orderbook (self : t) (book : OrderBook.t) : t :=
  mk (Some book) (performance_tracker self).

Section Simulate.
Context {np : NumPy}.

(** [simulate(self, exchange, symbol, order_type, quantity, volatility,
    fee_tier)]: the simulator after the call and the dictionary returned.
    [start_time] and [end_time] are the two readings of [time.time()],
    [now_iso] is [datetime.now().isoformat()]. *)
Definition simulate (self : t) (exchange symbol order_type : string)
    (quantity volatility : R) (fee_tier : string)
    (start_time end_time : R) (now_iso : string) : t * SimulationResult :=
  match orderbook self with
  | None => (self, Error "No orderbook data available")
  | Some book =>
      let attempt :=
        let is_buy := true in
        let expected_slippage := SlippageModel.estimate book quantity is_buy in
        let maker_taker_proportion := MakerTakerModel.predict book quantity in
        let expected_fees :=
          FeeCalculator.calculate fee_tier quantity maker_taker_proportion in
        base_quantity <- truediv quantity (OrderBook.mid_price book) ;;
        let market_impact :=
          AlmgrenChrissModel.calculate_impact
            volatility base_quantity (OrderBook.mid_price book) 1.0 [] in
        let net_cost :=
          (quantity * expected_slippage) + expected_fees
          + (quantity * market_impact) in
        let processing_time_ms := (end_time - start_time) * 1000 in
        Ok (processing_time_ms,
            {| expected_slippage := expected_slippage;
               expected_fees := expected_fees;
               market_impact := market_impact;
               net_cost := net_cost;
               maker_taker_proportion := maker_taker_proportion;
               internal_latency := processing_time_ms;
               estimate_timestamp := now_iso |}) in
      match attempt with
      | Ok (processing_time_ms, estimate) =>
          (mk (orderbook self)
              (PerformanceTracker.track_processing
                 (performance_tracker self) processing_time_ms),
           Estimate estimate)
      | Raise e => (self, Error (str e))
      end
  end.
End Simulate.

End TradeSimulator.

(** ** The module-level objects and the feed loop

    One [OrderBook] object exists; [trade_simulator.orderbook] is [None]
    until the first accepted update and that same object afterwards, so the
    simulator sees whatever [update] has assigned, also when it raised. *)

Module Server.

Record t : Type := mk {
  orderbook : OrderBook.t;
  simulator_bound : bool;
  performance_tracker : PerformanceTracker.t
}.

Definition init (now : R) : t :=
  mk (OrderBook.init "OKX" "BTC-USDT-SWAP") false (PerformanceTracker.init 100 now).

(** The [TradeSimulator] object as it reads the module state. *)
Definition trade_simulator (s : t) : TradeSimulator.t :=
  TradeSimulator.mk
    (if simulator_bound s then Some (orderbook s) else None)
    (performance_tracker s).

(** One feed record with the two clock readings its handling takes. *)
Record Message : Type := {
  data : FeedRecord;
  update_clock : R;
  track_clock : R
}.

Section Feed.
Variable pyfloat : string -> option R.

(** [if orderbook.update(data): set_orderbook(orderbook); track_update()] *)
Definition on_message (s : t) (m : Message) : t :=
  let '(book, accepted) := OrderBook.update pyfloat (orderbook s) (data m) (update_clock m) in
  if accepted then
    mk book true (PerformanceTracker.track_update (performance_tracker s) (track_clock m))
  else
    mk book (simulator_bound s) (performance_tracker s).

Definition run (s : t) (feed : list Message) : t := fold_left on_message feed s.

(** The values [orderbook.update] returns along the feed. *)
Fixpoint verdicts (s : t) (feed : list Message) : list bool :=
  match feed with
  | [] => []
  | m :: rest =>
      snd (OrderBook.update pyfloat (orderbook s) (data m) (update_clock m))
      :: verdicts (on_message s m) rest
  end.
End Feed.

End Server.

(** ** Vocabulary of the statements *)

(** The price and size tokens of one side of a feed record. *)
Definition tokens (levels : list (string * string)) : list string :=
  flat_map (fun level => [fst level; snd level]) levels.

(** Some token of the side is refused by [float]. *)
Definition unparseable (pyfloat : string -> option R)
    (levels : list (string * string)) : Prop :=
  exists token, In token (tokens levels) /\ pyfloat token = None.

(** What [update] leaves in the object and returns, for each way its body
    can end. *)
Inductive update_outcome (pyfloat : string -> option R) (self : OrderBook.t)
    (data : FeedRecord) (now : R) : OrderBook.t * bool -> Prop :=
| bad_ask :
    unparseable pyfloat (feed_asks data) ->
    update_outcome pyfloat self data now
      (OrderBook.set_timestamp (feed_timestamp data) self, false)
| bad_bid parsed_asks :
    OrderBook.parse_levels pyfloat (feed_asks data) = Ok parsed_asks ->
    unparseable pyfloat (feed_bids data) ->
    update_outcome pyfloat self data now
      (OrderBook.set_asks parsed_asks
         (OrderBook.set_timestamp (feed_timestamp data) self), false)
| zero_mid parsed_asks parsed_bids best_ask ask_size asks' best_bid bid_size bids' :
    OrderBook.parse_levels pyfloat (feed_asks data) = Ok parsed_asks ->
    OrderBook.parse_levels pyfloat (feed_bids data) = Ok parsed_bids ->
    OrderBook.sort_levels false parsed_asks = (best_ask, ask_size) :: asks' ->
    OrderBook.sort_levels true parsed_bids = (best_bid, bid_size) :: bids' ->
    (best_ask + best_bid) / 2 = 0 ->
    update_outcome pyfloat self data now
      (OrderBook.mk (OrderBook.exchange self) (OrderBook.symbol self)
         (OrderBook.sort_levels false parsed_asks)
         (OrderBook.sort_levels true parsed_bids)
         (feed_timestamp data) ((best_ask + best_bid) / 2)
         (OrderBook.spread_pct self) (OrderBook.ask_depth self)
         (OrderBook.bid_depth self) (OrderBook.last_update_time self), false)
| two_sided parsed_asks parsed_bids best_ask ask_size asks' best_bid bid_size bids' :
    OrderBook.parse_levels pyfloat (feed_asks data) = Ok parsed_asks ->
    OrderBook.parse_levels pyfloat (feed_bids data) = Ok parsed_bids ->
    OrderBook.sort_levels false parsed_asks = (best_ask, ask_size) :: asks' ->
    OrderBook.sort_levels true parsed_bids = (best_bid, bid_size) :: bids' ->
    (best_ask + best_bid) / 2 <> 0 ->
    update_outcome pyfloat self data now
      (OrderBook.mk (OrderBook.exchange self) (OrderBook.symbol self)
         (OrderBook.sort_levels false parsed_asks)
         (OrderBook.sort_levels true parsed_bids)
         (feed_timestamp data) ((best_ask + best_bid) / 2)
         ((best_ask - best_bid) / ((best_ask + best_bid) / 2) * 100)
         (OrderBook.depth (OrderBook.sort_levels false parsed_asks))
         (OrderBook.depth (OrderBook.sort_levels true parsed_bids)) now, true)
| empty_side parsed_asks parsed_bids :
    OrderBook.parse_levels pyfloat (feed_asks data) = Ok parsed_asks ->
    OrderBook.parse_levels pyfloat (feed_bids data) = Ok parsed_bids ->
    parsed_asks = [] \/ parsed_bids = [] ->
    update_outcome pyfloat self data now
      (OrderBook.mk (OrderBook.exchange self) (OrderBook.symbol self)
         (OrderBook.sort_levels false parsed_asks)
         (OrderBook.sort_levels true parsed_bids)
         (feed_timestamp data) (OrderBook.mid_price self)
         (OrderBook.spread_pct self)
         (OrderBook.depth (OrderBook.sort_levels false parsed_asks))
         (OrderBook.depth (OrderBook.sort_levels true parsed_bids)) now, true).

(** The book of the end-to-end scenario, as the feed sends it. *)
Definition scenario_record (stamp : string) : FeedRecord :=
  {| feed_timestamp := stamp;
     feed_asks := [("101", "1"); ("102", "2")];
     feed_bids := [("100", "1"); ("99", "2")] |}.

(** The order book after the scenario record has been accepted. *)
Definition scenario_book (stamp : string) (now : R) : OrderBook.t :=
  OrderBook.mk "OKX" "BTC-USDT-SWAP" [(101, 1); (102, 2)] [(100, 1); (99, 2)]
    stamp 100.5 (200 / 201) 3 3 now.

(** A record whose asks parse and whose bids hold a bad token. *)
Definition half_bad_record : FeedRecord :=
  {| feed_timestamp := "2025-05-01T00:00:00Z";
     feed_asks := [("101", "1")];
     feed_bids := [("100", "oops")] |}.

(** A record with asks only. *)
Definition asks_only_record : FeedRecord :=
  {| feed_timestamp := "2025-05-01T00:00:01Z";
     feed_asks := [("101", "1")];
     feed_bids := [] |}.

Definition asks_only_message : Server.Message :=
  {| Server.data := asks_only_record;
     Server.update_clock := 10;
     Server.track_clock := 11 |}.

(** The slope of [tanh]. *)
Definition sech2 (x : R) : R := / (cosh x * cosh x).

(** The sum that [calculate_impact] clamps, with the default parameters. *)
Definition total_impact {np : NumPy} (sigma quantity time_horizon : R) : R :=
  0.005 * quantity / time_horizon
  + 0.01 * quantity
    * np_tanh (np_sqrt (0.1 * sigma * sigma / (2 * 0.01))
               * (time_horizon / py_max 0.01 quantity)).

(** The last [n] elements of a list, in their order. *)
Definition most_recent {A : Type} (n : nat) (l : list A) : list A :=
  skipn (List.length l - n) l.

(** Calls on a [PerformanceTracker]; [TrackUpdate] carries the clock reading. *)
Inductive tracker_call : Type :=
| TrackProcessing (duration_ms : R)
| TrackUpdate (now : R).

Definition apply_call (self : PerformanceTracker.t) (c : tracker_call)
    : PerformanceTracker.t :=
  match c with
  | TrackProcessing duration_ms => PerformanceTracker.track_processing self duration_ms
  | TrackUpdate now => PerformanceTracker.track_update self now
  end.

Definition run_calls (self : PerformanceTracker.t) (calls : list tracker_call)
    : PerformanceTracker.t :=
  fold_left apply_call calls self.

(** The processing samples of a sequence of calls, in push order. *)
Fixpoint durations (calls : list tracker_call) : list R :=
  match calls with
  | [] => []
  | TrackProcessing duration_ms :: rest => duration_ms :: durations rest
  | TrackUpdate _ :: rest => durations rest
  end.

(** The update intervals of a sequence of calls, in push order; [previous]
    is the clock reading of the last update (or of the construction). *)
Fixpoint intervals (previous : R) (calls : list tracker_call) : list R :=
  match calls with
  | [] => []
  | TrackProcessing _ :: rest => intervals previous rest
  | TrackUpdate now :: rest => (now - previous) :: intervals now rest
  end.

(** ** class ConnectionManager

    The list [active_connections]; a websocket is the identity of its
    object.  [connect] is the append that follows the awaited [accept()];
    [broadcast] awaits inside its loop and is not modelled. *)

Module ConnectionManager.

Definition t : Type := list nat.

(** [__init__] *)
Definition init : t := [].

(** [self.active_connections.append(websocket)] *)
Definition connect (self : t) (websocket : nat) : t := self ++ [websocket].

(** [list.remove(x)]: drops the first occurrence; [None] stands for the
    [ValueError] raised when there is none. *)
Fixpoint list_remove (x : nat) (l : list nat) : option (list nat) :=
  match l with
  | [] => None
  | y :: rest =>
      if Nat.eqb y x then Some rest
      else match list_remove x rest with
           | Some rest' => Some (y :: rest')
           | None => None
           end
  end.

(** [disconnect(self, websocket)] *)
Definition disconnect (self : t) (websocket : nat) : option t :=
  list_remove websocket self.

End ConnectionManager.

(** ** The endpoints [POST /api/simulate] and [/ws]

    The request body with the value each key holds, if present: a JSON
    number or a JSON string for the two numeric fields. *)

Inductive JsonScalar : Type :=
| JsonNumber (x : R)
| JsonString (s : string).

Record SimulateParams : Type := {
  param_exchange : option string;
  param_symbol : option string;
  param_orderType : option string;
  param_quantity : option JsonScalar;
  param_volatility : option JsonScalar;
  param_feeTier : option string
}.

(** The empty body [{}]. *)
Definition no_params : SimulateParams :=
  {| param_exchange := None; param_symbol := None; param_orderType := None;
     param_quantity := None; param_volatility := None; param_feeTier := None |}.

(** A decoded message of a websocket client, with its keys if present. *)
Record ClientMessage : Type := {
  message_type : option string;
  message_params : option SimulateParams
}.

(** What [websocket_endpoint] sends back for one message:
    [{"type": "simulation_result", "data": ...}], [{"type": "error",
    "message": ...}], or nothing. *)
Inductive Reply : Type :=
| NoReply
| SimulationReply (data : SimulationResult)
| ErrorReply (message : string).

(** [params.get(key, default)] on a key of the body. *)
Definition get_param {A : Type} (value : option A) (default : A) : A :=
  match value with
  | Some v => v
  | None => default
  end.

Section Api.
Context {np : NumPy}.
Variable pyfloat : string -> option R.

(** [repr(token)] of a Python string: the quotes it chooses and the
    characters it escapes. *)
Variable repr : string -> string.

(** [str(e)] for what the evaluation of the arguments can raise. *)
Definition error_text (e : exn) : string :=
  match e with
  | ValueError token =>
      String.append "could not convert string to float: " (repr token)
  | _ => str e
  end.

(** [float(v)] on a value of the body. *)
Definition float_of_scalar (v : JsonScalar) : result R :=
  match v with
  | JsonNumber x => Ok x
  | JsonString s => OrderBook.float pyfloat s
  end.

(** The arguments both endpoints pass to [simulate], evaluated in their
    order: absent keys take their defaults, [quantity] and [volatility] go
    through [float]. *)
Definition simulate_arguments (params : SimulateParams)
    : result (string * string * string * R * R * string) :=
  let exchange := get_param (param_exchange params) "OKX" in
  let symbol := get_param (param_symbol params) "BTC-USDT" in
  let order_type := get_param (param_orderType params) "market" in
  quantity <- float_of_scalar (get_param (param_quantity params) (JsonNumber 100)) ;;
  volatility <- float_of_scalar (get_param (param_volatility params) (JsonNumber 0.02)) ;;
  let fee_tier := get_param (param_feeTier params) "VIP0" in
  Ok (exchange, symbol, order_type, quantity, volatility, fee_tier).

(** [simulate_trade(params)], the handler of [POST /api/simulate]: the
    simulator after the call and the dictionary returned.  What the
    evaluation of the arguments raises is caught by the handler. *)
Definition simulate_trade (simulator : TradeSimulator.t) (params : SimulateParams)
    (start_time end_time : R) (now_iso : string)
    : TradeSimulator.t * SimulationResult :=
  match simulate_arguments params with
  | Ok (exchange, symbol, order_type, quantity, volatility, fee_tier) =>
      TradeSimulator.simulate simulator exchange symbol order_type
        quantity volatility fee_tier start_time end_time now_iso
  | Raise e => (simulator, Error (error_text e))
  end.

(** One decoded client message in [websocket_endpoint]: the simulator after
    it and what is sent back.  Only messages of type ["simulate_trade"] are
    answered; absent [params] are the empty dictionary. *)
Definition handle_client_message (simulator : TradeSimulator.t)
    (message : ClientMessage) (start_time end_time : R) (now_iso : string)
    : TradeSimulator.t * Reply :=
  match message_type message with
  | Some kind =>
      if String.eqb kind "simulate_trade" then
        let params := get_param (message_params message) no_params in
        match simulate_arguments params with
        | Ok (exchange, symbol, order_type, quantity, volatility, fee_tier) =>
            let '(simulator', result) :=
              TradeSimulator.simulate simulator exchange symbol order_type
                quantity volatility fee_tier start_time end_time now_iso in
            (simulator', SimulationReply result)
        | Raise e => (simulator, ErrorReply (error_text e))
        end
      else (simulator, NoReply)
  | None => (simulator, NoReply)
  end.
End Api.

(** The sum of [price * size] over the levels of a side. *)
Definition notional (levels : list (R * R)) : R :=
  fold_right (fun level acc => fst level * snd level + acc) 0 levels.

(** The value a keyword argument gives to [key]: the last one passed, or
    [default] when there is none. *)
Definition keyword (kwargs : list (string * R)) (key : string) (default : R) : R :=
  dict_get_default (rev kwargs) key default.

(** The number of updates a feed had accepted. *)
Definition accepted_count (verdicts : list bool) : nat :=
  List.length (filter (fun accepted => accepted) verdicts).

(** The maker and taker rates [calculate] uses for a tier. *)
Definition rates (fee_tier : string) : R * R :=
  dict_get_default FeeCalculator.fee_tiers fee_tier (0.0008, 0.0010).

(** The logit [predict] feeds to the sigmoid. *)
Definition maker_logit {np : NumPy} (orderbook : OrderBook.t) (quantity : R) : R :=
  let total_depth := OrderBook.ask_depth orderbook + OrderBook.bid_depth orderbook in
  let relative_size := py_min (quantity / py_max total_depth 0.001) 1 in
  let spread_feature := py_min (OrderBook.spread_pct orderbook / 0.1) 1 in
  let depth_ratio :=
    OrderBook.ask_depth orderbook / py_max (OrderBook.bid_depth orderbook) 0.00001 in
  let imbalance_feature := py_min (Rabs (np_log depth_ratio) / 3) 1 in
  0.2 + -2.5 * relative_size + 1.5 * spread_feature + -1.0 * imbalance_feature.

(** A record whose lowest ask and highest bid cancel out. *)
Definition cancelling_record : FeedRecord :=
  {| feed_timestamp := "2025-05-01T00:00:03Z";
     feed_asks := [("1", "1")];
     feed_bids := [("-1", "1")] |}.

(** ** The models in binary64

    The two models whose results the specification bounds, once more with
    Python's own numbers: [float] is IEEE 754 binary64, with its rounding,
    infinities and nan.  Operations on two Python floats raise
    [ZeroDivisionError] on a zero divisor and nothing else; [np.sqrt] is the
    correctly rounded square root; [np.tanh] is a parameter. *)

Module Binary64.

Local Open Scope float_scope.
Local Set Warnings "-inexact-float".

(** [x / y] on Python floats. *)
Definition truediv (x y : float) : result float :=
  if y =? 0 then Raise ZeroDivisionError else Ok (x / y).

(** [max(a, b)] and [min(a, b)]: the second argument replaces the first
    when it compares strictly greater (resp. smaller); a comparison with nan
    is false. *)
Definition py_max (a b : float) : float := if a <? b then b else a.
Definition py_min (a b : float) : float := if b <? a then b else a.

(** The attributes of an [OrderBook]. *)
Module OrderBook.

Record t : Type := mk {
  exchange : string;
  symbol : string;
  asks : list (float * float);
  bids : list (float * float);
  timestamp : string;
  mid_price : float;
  spread_pct : float;
  ask_depth : float;
  bid_depth : float;
  last_update_time : float
}.

End OrderBook.

Module AlmgrenChrissModel.

Definition default_params : list (string * float) :=
  [("gamma", 0.1); ("eta", 0.01); ("epsilon", 0.005)].

Section Model.
Variable np_tanh : float -> float.

(** [calculate_impact(self, sigma, quantity, price, time_horizon, **kwargs)] *)
Definition calculate_impact (sigma quantity price time_horizon : float)
    (kwargs : list (string * float)) : float :=
  try_except
    (let params := dict_update default_params kwargs in
     gamma <- dict_get params "gamma" ;;
     eta <- dict_get params "eta" ;;
     epsilon <- dict_get params "epsilon" ;;
     variance_ratio <- truediv (gamma * sigma * sigma) (2 * eta) ;;
     let kappa := PrimFloat.sqrt variance_ratio in
     tau <- truediv time_horizon (py_max 0.01 quantity) ;;
     temporary_impact <- truediv (epsilon * quantity) time_horizon ;;
     let permanent_impact := eta * quantity * np_tanh (kappa * tau) in
     let total_impact := temporary_impact + permanent_impact in
     Ok (py_min (py_max total_impact 0) 0.1))
    0.001.
End Model.

End AlmgrenChrissModel.

Module SlippageModel.

(** The [for price, size in levels] loop. *)
Fixpoint walk_levels (levels : list (float * float)) (remaining_qty total_cost : float)
    : result (float * float) :=
  match levels with
  | [] => Ok (remaining_qty, total_cost)
  | (price, size) :: rest =>
      let level_value_usd := price * size in
      if remaining_qty <=? level_value_usd then
        proportion <- truediv remaining_qty level_value_usd ;;
        Ok (0, total_cost + price * proportion * remaining_qty)
      else
        walk_levels rest (remaining_qty - level_value_usd) (total_cost + price * size)
  end.

(** [estimate(self, orderbook, quantity, is_buy)] *)
Definition estimate (orderbook : OrderBook.t) (quantity : float) (is_buy : bool)
    : float :=
  try_except
    (let levels := if is_buy then OrderBook.asks orderbook else OrderBook.bids orderbook in
     match levels with
     | [] => Ok 0
     | first :: others =>
         '(remaining_qty, total_cost) <- walk_levels levels quantity 0 ;;
         let total_cost :=
           if 0 <? remaining_qty then
             let last_price := fst (last others first) in
             total_cost + last_price * remaining_qty * 1.01
           else total_cost in
         effective_price <-
           (if 0 <? quantity then truediv total_cost quantity else Ok 0) ;;
         slippage <-
           (if 0 <? OrderBook.mid_price orderbook then
              ratio <- truediv effective_price (OrderBook.mid_price orderbook) ;;
              Ok (if is_buy then ratio - 1 else 1 - ratio)
            else Ok 0) ;;
         let spread_factor := OrderBook.spread_pct orderbook * 0.1 in
         let depth :=
           if is_buy then OrderBook.ask_depth orderbook
           else OrderBook.bid_depth orderbook in
         inverse_depth <- truediv 1 (depth + 1) ;;
         let depth_factor := inverse_depth * 0.05 in
         let adjusted_slippage := slippage + spread_factor + depth_factor in
         Ok (py_max (py_min adjusted_slippage 0.05) 0)
     end)
    0.001.

End SlippageModel.

(** The snapshot of the end-to-end scenario, in binary64. *)
Definition scenario_book : OrderBook.t :=
  OrderBook.mk "OKX" "BTC-USDT-SWAP" [(101, 1); (102, 2)] [(100, 1); (99, 2)]
    "2025-05-01T00:00:00Z" ((101 + 100) / 2) ((101 - 100) / ((101 + 100) / 2) * 100)
    (0 + 1 + 2) (0 + 1 + 2) 7.

(** [lo <= x <= hi] on floats; false when [x] is nan. *)
Definition within (lo hi x : float) : bool := (lo <=? x) && (x <=? hi).

End Binary64.

(** ** Tactics *)

(** Case analysis on the comparisons of a goal, innermost first; the
    branches that contradict the hypotheses are closed. *)
Ltac plain_real t :=
  lazymatch t with
  | context [Rlt_dec _ _] => fail
  | context [Rle_dec _ _] => fail
  | context [Req_dec_T _ _] => fail
  | _ => idtac
  end.

Ltac decide_reals :=
  repeat match goal with
  | |- context [Rlt_dec ?a ?b] =>
      plain_real a; plain_real b; destruct (Rlt_dec a b); try (exfalso; lra)
  | |- context [Rle_dec ?a ?b] =>
      plain_real a; plain_real b; destruct (Rle_dec a b); try (exfalso; lra)
  | |- context [Req_dec_T ?a ?b] =>
      plain_real a; plain_real b; destruct (Req_dec_T a b); try (exfalso; lra)
  end.

Ltac unfold_update :=
  unfold OrderBook.update, OrderBook.update_body, OrderBook.seq,
    OrderBook.assign, OrderBook.lift, OrderBook.read, OrderBook.ret;
  unfold OrderBook.set_last_update_time, OrderBook.set_bid_depth,
    OrderBook.set_ask_depth, OrderBook.set_spread_pct, OrderBook.set_mid_price.

(** ** Python arithmetic *)

Lemma py_max_Rmax a b : py_max a b = Rmax a b.
Proof. unfold py_max, Rmax. destruct (Rlt_dec a b), (Rle_dec a b); lra. Qed.

Lemma py_min_Rmin a b : py_min a b = Rmin a b.
Proof. unfold py_min, Rmin. destruct (Rlt_dec b a), (Rle_dec a b); lra. Qed.

Lemma py_max_ge_l a b : a <= py_max a b.
Proof. unfold py_max. destruct (Rlt_dec a b); lra. Qed.

Lemma clamp_bounds x lo hi : lo <= hi -> lo <= py_min (py_max x lo) hi <= hi.
Proof. intros H. unfold py_min, py_max. decide_reals; lra. Qed.

Lemma clamp_monotone x y lo hi :
  x <= y -> py_min (py_max x lo) hi <= py_min (py_max y lo) hi.
Proof. intros H. unfold py_min, py_max. decide_reals; lra. Qed.

Lemma truediv_nonzero x y : y <> 0 -> truediv x y = Ok (x / y).
Proof.
  intros H. unfold truediv. destruct (Req_dec_T y 0); [contradiction | reflexivity].
Qed.

Lemma truediv_zero x : truediv x 0 = Raise ZeroDivisionError.
Proof.
  unfold truediv. destruct (Req_dec_T 0 0); [reflexivity | contradiction].
Qed.

Lemma bind_Ok_inv {A B : Type} (r : result A) (k : A -> result B) (b : B) :
  bind r k = Ok b -> exists a, r = Ok a /\ k a = Ok b.
Proof. destruct r as [a | e]; simpl; [eauto | discriminate]. Qed.

Lemma try_except_cases {A : Type} (P : A -> Prop) (body : result A) (fallback : A) :
  (forall a, body = Ok a -> P a) -> P fallback -> P (try_except body fallback).
Proof. intros Hok Hfall. destruct body; simpl; auto. Qed.

Ltac invert_bind H :=
  let a := fresh "v" in
  let Ha := fresh "Hv" in
  apply bind_Ok_inv in H; destruct H as (a & Ha & H).

(** ** OrderBook.update *)

(** The comprehension over one side either parses every token, or raises
    the [ValueError] of the first token that [float] refuses. *)
Lemma parse_levels_cases pyfloat levels :
  (exists parsed, OrderBook.parse_levels pyfloat levels = Ok parsed
                  /\ ~ unparseable pyfloat levels)
  \/ (exists token, OrderBook.parse_levels pyfloat levels = Raise (ValueError token)
                    /\ In token (tokens levels) /\ pyfloat token = None).
Proof.
  unfold unparseable. induction levels as [|[price size] rest IH]; simpl.
  - left. exists []. split; [reflexivity | intros (t & [] & _)].
  - unfold OrderBook.float.
    destruct (pyfloat price) eqn:Hp; simpl; [| right; exists price; auto].
    destruct (pyfloat size) eqn:Hs; simpl; [| right; exists size; auto].
    destruct IH as [(parsed & -> & Hgood) | (t & -> & Hin & Hnone)]; simpl.
    + left. eexists. split; [reflexivity |].
      intros (t & [<- | [<- | Hin]] & Hnone); try congruence.
      apply Hgood. eauto.
    + right. exists t. auto.
Qed.

Lemma parsed_not_unparseable pyfloat levels parsed :
  OrderBook.parse_levels pyfloat levels = Ok parsed -> ~ unparseable pyfloat levels.
Proof.
  intros H. destruct (parse_levels_cases pyfloat levels) as [(p & _ & Hgood) | E].
  - exact Hgood.
  - destruct E as (t & E & _). congruence.
Qed.

Lemma sort_levels_nil reverse l : OrderBook.sort_levels reverse l = [] <-> l = [].
Proof.
  split; [| intros ->; reflexivity].
  destruct l as [|x l]; [reflexivity | simpl].
  destruct (OrderBook.sort_levels reverse l) as [|y l']; simpl; [discriminate |].
  destruct (OrderBook.comes_before reverse (fst y) (fst x)); discriminate.
Qed.



Lemma update_cases pyfloat self data now :
  update_outcome pyfloat self data now (OrderBook.update pyfloat self data now).
Proof.
  unfold_update.
  destruct (parse_levels_cases pyfloat (feed_asks data))
    as [(parsed_asks & Ha & _) | (t & Ha & Hbad)]; rewrite Ha; simpl.
  2:{ apply bad_ask. now exists t. }
  destruct (parse_levels_cases pyfloat (feed_bids data))
    as [(parsed_bids & Hb & _) | (t & Hb & Hbad)]; rewrite Hb; simpl.
  2:{ apply bad_bid; [assumption | now exists t]. }
  destruct (OrderBook.sort_levels false parsed_asks)
    as [|[best_ask ask_size] asks'] eqn:Hsa.
  { apply sort_levels_nil in Hsa. subst parsed_asks. simpl.
    eapply (empty_side _ _ _ _ [] parsed_bids); auto. }
  destruct (OrderBook.sort_levels true parsed_bids)
    as [|[best_bid bid_size] bids'] eqn:Hsb.
  { apply sort_levels_nil in Hsb. subst parsed_bids. simpl. rewrite <- Hsa.
    eapply (empty_side _ _ _ _ parsed_asks []); auto. }
  simpl. unfold truediv.
  destruct (Req_dec_T ((best_ask + best_bid) / 2) 0) as [Hz | Hnz]; simpl.
  - rewrite <- Hsa, <- Hsb. eapply zero_mid; eauto.
  - rewrite <- Hsa, <- Hsb. eapply two_sided; eauto.
Qed.

Lemma scenario_update self stamp now :
  OrderBook.update decimal_float self (scenario_record stamp) now
  = (OrderBook.mk (OrderBook.exchange self) (OrderBook.symbol self)
       [(101, 1); (102, 2)] [(100, 1); (99, 2)] stamp
       100.5 (200 / 201) 3 3 now, true).
Proof.
  unfold_update. simpl.
  unfold OrderBook.comes_before, truediv. decide_reals. simpl.
  unfold OrderBook.depth, py_sum; simpl.
  f_equal. f_equal; lra.
Qed.

(** C1 (as the code has it).  When a price or size token of the record is
    refused by [float], [update] returns [False] and leaves [bids],
    [mid_price], [spread_pct], [ask_depth], [bid_depth] and
    [last_update_time] (and [exchange], [symbol]) as they were; [timestamp]
    has been overwritten with the record's timestamp; [asks] is as it was
    when an ask token is bad, and holds the parsed, not yet sorted asks of the
    record when all ask tokens parse and the bad token is among the bids. *)
Theorem update_rejection_keeps_all_but_timestamp_and_asks
    (pyfloat : string -> option R) (self : OrderBook.t)
    (data : FeedRecord) (now : R) :
  unparseable pyfloat (feed_asks data) \/ unparseable pyfloat (feed_bids data) ->
  let self' := fst (OrderBook.update pyfloat self data now) in
  snd (OrderBook.update pyfloat self data now) = false
  /\ OrderBook.exchange self' = OrderBook.exchange self
  /\ OrderBook.symbol self' = OrderBook.symbol self
  /\ OrderBook.bids self' = OrderBook.bids self
  /\ OrderBook.mid_price self' = OrderBook.mid_price self
  /\ OrderBook.spread_pct self' = OrderBook.spread_pct self
  /\ OrderBook.ask_depth self' = OrderBook.ask_depth self
  /\ OrderBook.bid_depth self' = OrderBook.bid_depth self
  /\ OrderBook.last_update_time self' = OrderBook.last_update_time self
  /\ OrderBook.timestamp self' = feed_timestamp data
  /\ (unparseable pyfloat (feed_asks data) ->
      OrderBook.asks self' = OrderBook.asks self)
  /\ (forall parsed_asks,
        OrderBook.parse_levels pyfloat (feed_asks data) = Ok parsed_asks ->
        OrderBook.asks self' = parsed_asks).
Proof.
  intros Hbad self'. subst self'.
  destruct (update_cases pyfloat self data now)
    as [Ha | pa Ha Hb | pa pb ? ? ? ? ? ? Ha Hb | pa pb ? ? ? ? ? ? Ha Hb | pa pb Ha Hb];
    simpl.
  - repeat split; auto.
    intros parsed Hp. apply parsed_not_unparseable in Hp. contradiction.
  - repeat split; auto.
    + intros Hx. apply parsed_not_unparseable in Ha. contradiction.
    + intros parsed Hp. congruence.
  - apply parsed_not_unparseable in Ha, Hb. tauto.
  - apply parsed_not_unparseable in Ha, Hb. tauto.
  - apply parsed_not_unparseable in Ha, Hb. tauto.
Qed.

Lemma update_rejection_keeps_all_but_timestamp_and_asks_witness :
  snd (OrderBook.update decimal_float (OrderBook.init "OKX" "BTC-USDT-SWAP")
         half_bad_record 7) = false
  /\ OrderBook.bids
       (fst (OrderBook.update decimal_float (OrderBook.init "OKX" "BTC-USDT-SWAP")
               half_bad_record 7)) = [].
Proof.
  assert (Hbad : unparseable decimal_float (feed_asks half_bad_record)
                 \/ unparseable decimal_float (feed_bids half_bad_record)).
  { right. exists "oops". split; [simpl; auto | reflexivity]. }
  pose proof (update_rejection_keeps_all_but_timestamp_and_asks
                decimal_float (OrderBook.init "OKX" "BTC-USDT-SWAP")
                half_bad_record 7 Hbad) as H.
  split; [apply H | apply H].
Defined.

(** C1 fails as stated: on a record whose bids hold a bad token, [update]
    returns [False] with [timestamp] and [asks] already replaced. *)
Lemma update_rejection_is_partial :
  let self := OrderBook.init "OKX" "BTC-USDT-SWAP" in
  let after := OrderBook.update decimal_float self half_bad_record 7 in
  unparseable decimal_float (feed_bids half_bad_record)
  /\ snd after = false
  /\ OrderBook.timestamp (fst after) = "2025-05-01T00:00:00Z"
  /\ OrderBook.timestamp self = ""
  /\ OrderBook.asks (fst after) = [(101, 1)]
  /\ OrderBook.asks self = []
  /\ fst after <> self.
Proof.
  cbv zeta.
  assert (H : OrderBook.update decimal_float (OrderBook.init "OKX" "BTC-USDT-SWAP")
                half_bad_record 7
              = (OrderBook.mk "OKX" "BTC-USDT-SWAP" [(101, 1)] []
                   "2025-05-01T00:00:00Z" 0 0 0 0 0, false))
    by reflexivity.
  rewrite H. simpl. repeat split; try reflexivity.
  - exists "oops". split; [simpl; auto | reflexivity].
  - discriminate.
Qed.

(** C2 (as the code has it).  After the scenario record is accepted the
    snapshot has [mid_price = 100.5], [spread_pct = 200/201] (about
    0.9950), [ask_depth = 3] and [bid_depth = 3], with asks and bids as sent. *)
Theorem scenario_snapshot (self : OrderBook.t) (stamp : string) (now : R) :
  let after := fst (OrderBook.update decimal_float self (scenario_record stamp) now) in
  snd (OrderBook.update decimal_float self (scenario_record stamp) now) = true
  /\ OrderBook.asks after = [(101, 1); (102, 2)]
  /\ OrderBook.bids after = [(100, 1); (99, 2)]
  /\ OrderBook.mid_price after = 100.5
  /\ OrderBook.spread_pct after = 200 / 201
  /\ Rabs (OrderBook.spread_pct after - 0.9950) <= 0.0001
  /\ OrderBook.ask_depth after = 3
  /\ OrderBook.bid_depth after = 3.
Proof.
  cbv zeta. rewrite scenario_update. simpl.
  repeat split; try reflexivity.
  unfold Rabs. destruct (Rcase_abs _); lra.
Qed.

(** C2 fails as stated: the spread of the scenario snapshot is not within
    0.01 of 0.4975. *)
Lemma scenario_spread_is_not_0_4975 :
  let after :=
    fst (OrderBook.update decimal_float (OrderBook.init "OKX" "BTC-USDT-SWAP")
           (scenario_record "2025-05-01T00:00:00Z") 7) in
  ~ (OrderBook.mid_price after = 100.5
     /\ Rabs (OrderBook.spread_pct after - 0.4975) <= 0.01
     /\ OrderBook.ask_depth after = 3
     /\ OrderBook.bid_depth after = 3).
Proof.
  cbv zeta. rewrite scenario_update. simpl.
  intros (_ & H & _). revert H.
  unfold Rabs. destruct (Rcase_abs _); lra.
Qed.

(** C3.  When an accepted update comes from a record whose asks or whose
    bids are empty, [mid_price] and [spread_pct] keep their values, and
    [asks], [bids], [ask_depth], [bid_depth], [timestamp] (and
    [last_update_time]) are those of the new record. *)
Theorem update_empty_side_retains_mid_and_spread
    (pyfloat : string -> option R) (self : OrderBook.t)
    (data : FeedRecord) (now : R) :
  snd (OrderBook.update pyfloat self data now) = true ->
  feed_asks data = [] \/ feed_bids data = [] ->
  let self' := fst (OrderBook.update pyfloat self data now) in
  OrderBook.mid_price self' = OrderBook.mid_price self
  /\ OrderBook.spread_pct self' = OrderBook.spread_pct self
  /\ (exists parsed_asks parsed_bids,
        OrderBook.parse_levels pyfloat (feed_asks data) = Ok parsed_asks
        /\ OrderBook.parse_levels pyfloat (feed_bids data) = Ok parsed_bids
        /\ OrderBook.asks self' = OrderBook.sort_levels false parsed_asks
        /\ OrderBook.bids self' = OrderBook.sort_levels true parsed_bids)
  /\ OrderBook.ask_depth self' = OrderBook.depth (OrderBook.asks self')
  /\ OrderBook.bid_depth self' = OrderBook.depth (OrderBook.bids self')
  /\ OrderBook.timestamp self' = feed_timestamp data
  /\ OrderBook.last_update_time self' = now.
Proof.
  intros Hacc Hempty self'. subst self'. revert Hacc.
  destruct (update_cases pyfloat self data now)
    as [Ha | pa Ha Hb | pa pb ? ? ? ? ? ? Ha Hb Hsa Hsb
        | pa pb ? ? ? ? ? ? Ha Hb Hsa Hsb | pa pb Ha Hb];
    simpl; try discriminate; intros _.
  - exfalso. destruct Hempty as [E | E]; rewrite E in *; simpl in *.
    + injection Ha as <-. discriminate.
    + injection Hb as <-. discriminate.
  - repeat split; eauto 8.
Qed.

Lemma update_empty_side_retains_mid_and_spread_witness :
  OrderBook.mid_price
    (fst (OrderBook.update decimal_float (scenario_book "2025-05-01T00:00:00Z" 7)
            asks_only_record 10)) = 100.5
  /\ OrderBook.spread_pct
       (fst (OrderBook.update decimal_float (scenario_book "2025-05-01T00:00:00Z" 7)
               asks_only_record 10)) = 200 / 201.
Proof.
  pose proof (update_empty_side_retains_mid_and_spread
                decimal_float (scenario_book "2025-05-01T00:00:00Z" 7)
                asks_only_record 10 eq_refl (or_intror eq_refl)) as H.
  split; [apply H | apply H].
Defined.

(** ** AlmgrenChrissModel.calculate_impact *)

Lemma cosh_pos x : 0 < cosh x.
Proof.
  unfold cosh. pose proof (exp_pos x). pose proof (exp_pos (- x)). lra.
Qed.

Lemma sinh_nonneg x : 0 <= x -> 0 <= sinh x.
Proof.
  intros [Hx | <-]; [| rewrite sinh_0; lra].
  pose proof (sinh_lt 0 x Hx) as H. rewrite sinh_0 in H. lra.
Qed.

Lemma tanh_nonneg x : 0 <= x -> 0 <= tanh x.
Proof.
  intros Hx. unfold tanh.
  apply Rmult_le_pos; [now apply sinh_nonneg |].
  left. apply Rinv_0_lt_compat, cosh_pos.
Qed.

Lemma tanh_0 : tanh 0 = 0.
Proof. unfold tanh. rewrite sinh_0. lra. Qed.

Lemma cosh_sinh_sqr x : cosh x * cosh x - sinh x * sinh x = 1.
Proof.
  unfold cosh, sinh.
  assert (H : exp x * exp (- x) = 1) by (rewrite <- exp_plus, Rplus_opp_r; apply exp_0).
  nra.
Qed.

Lemma derivable_pt_lim_tanh x : derivable_pt_lim tanh x (sech2 x).
Proof.
  pose proof (derivable_pt_lim_div sinh cosh x (cosh x) (sinh x)
                (derivable_pt_lim_sinh x) (derivable_pt_lim_cosh x)) as H.
  assert (Hc : cosh x <> 0) by (pose proof (cosh_pos x); lra).
  specialize (H Hc).
  replace (sech2 x) with ((cosh x * cosh x - sinh x * sinh x) / Rsqr (cosh x)).
  - exact H.
  - rewrite cosh_sinh_sqr. unfold sech2, Rsqr. lra.
Qed.

Lemma cosh_le x y : 0 <= x -> x <= y -> cosh x <= cosh y.
Proof.
  intros Hx [Hxy | <-]; [| lra].
  destruct (MVT_cor2 cosh sinh x y Hxy) as (c & Hc & Hin).
  - intros; apply derivable_pt_lim_cosh.
  - assert (0 <= sinh c) by (apply sinh_nonneg; lra). nra.
Qed.

Lemma sech2_pos x : 0 < sech2 x.
Proof.
  unfold sech2. apply Rinv_0_lt_compat. pose proof (cosh_pos x). nra.
Qed.

Lemma sech2_decreasing x y : 0 <= x -> x <= y -> sech2 y <= sech2 x.
Proof.
  intros Hx Hxy. unfold sech2.
  pose proof (cosh_pos x). pose proof (cosh_le x y Hx Hxy).
  apply Rinv_le_contravar; nra.
Qed.

(** [tanh] grows more slowly than any of its chords from the origin. *)
Lemma tanh_chord a b : 0 < a -> a <= b -> a * tanh b <= b * tanh a.
Proof.
  intros Ha [Hab | <-]; [| lra].
  destruct (MVT_cor2 tanh sech2 0 a Ha) as (eta & Heta & Hin1).
  { intros; apply derivable_pt_lim_tanh. }
  destruct (MVT_cor2 tanh sech2 a b Hab) as (xi & Hxi & Hin2).
  { intros; apply derivable_pt_lim_tanh. }
  rewrite tanh_0 in Heta.
  assert (Hd : sech2 xi <= sech2 eta) by (apply sech2_decreasing; lra).
  pose proof (sech2_pos xi).
  replace (tanh b) with (tanh a + sech2 xi * (b - a)) by lra.
  replace (tanh a) with (sech2 eta * a) by lra.
  assert (0 <= a * (b - a)) by nra.
  nra.
Qed.

(** [q * tanh (c / q)] does not decrease with [q]. *)
Lemma scaled_tanh_monotone c q1 q2 :
  0 <= c -> 0 < q1 -> q1 <= q2 -> q1 * tanh (c / q1) <= q2 * tanh (c / q2).
Proof.
  intros [Hc | <-] Hq1 Hq.
  - assert (Hq2 : 0 < q2) by lra.
    assert (Ha : 0 < c / q2) by (apply Rdiv_lt_0_compat; lra).
    assert (Hab : c / q2 <= c / q1).
    { unfold Rdiv. apply Rmult_le_compat_l; [lra |].
      apply Rinv_le_contravar; lra. }
    pose proof (tanh_chord (c / q2) (c / q1) Ha Hab) as H.
    assert (E1 : q1 = c / (c / q1)) by (field; lra).
    assert (E2 : q2 = c / (c / q2)) by (field; lra).
    assert (Hb : 0 < c / q1) by lra.
    set (a := c / q2) in *. set (b := c / q1) in *.
    rewrite E1 at 1. rewrite E2 at 1.
    (* c / b * tanh b <= c / a * tanh a *)
    assert (Hgoal : tanh b / b <= tanh a / a).
    { apply (Rmult_le_reg_r (a * b)); [nra |].
      replace (tanh b / b * (a * b)) with (a * tanh b) by (field; lra).
      replace (tanh a / a * (a * b)) with (b * tanh a) by (field; lra).
      exact H. }
    replace (c / b * tanh b) with (c * (tanh b / b)) by (field; lra).
    replace (c / a * tanh a) with (c * (tanh a / a)) by (field; lra).
    apply Rmult_le_compat_l; lra.
  - unfold Rdiv. rewrite !Rmult_0_l, tanh_0. lra.
Qed.

Lemma calculate_impact_default {np : NumPy} sigma quantity price time_horizon :
  AlmgrenChrissModel.calculate_impact sigma quantity price time_horizon []
  = if Req_dec_T time_horizon 0 then 0.001
    else py_min (py_max (total_impact sigma quantity time_horizon) 0) 0.1.
Proof.
  unfold AlmgrenChrissModel.calculate_impact, total_impact. simpl.
  rewrite (truediv_nonzero _ (2 * 0.01)) by lra. simpl.
  rewrite (truediv_nonzero _ (py_max 0.01 quantity))
    by (pose proof (py_max_ge_l 0.01 quantity); lra).
  simpl. unfold truediv.
  destruct (Req_dec_T time_horizon 0); reflexivity.
Qed.

Lemma total_impact_monotone sigma time_horizon q1 q2 :
  0 < time_horizon -> 0 <= q1 -> q1 <= q2 ->
  total_impact (np := real_numpy) sigma q1 time_horizon
  <= total_impact (np := real_numpy) sigma q2 time_horizon.
Proof.
  intros Hth Hq1 Hq. unfold total_impact. simpl.
  set (kappa := sqrt (0.1 * sigma * sigma / (2 * 0.01))).
  assert (Hk : 0 <= kappa) by apply sqrt_pos.
  assert (Htemp : 0.005 * q1 / time_horizon <= 0.005 * q2 / time_horizon).
  { unfold Rdiv. apply Rmult_le_compat_r; [left; now apply Rinv_0_lt_compat | lra]. }
  assert (Hc : 0 <= kappa * time_horizon) by nra.
  assert (Hperm : forall q, 0.01 <= q ->
            kappa * (time_horizon / py_max 0.01 q) = kappa * time_horizon / q).
  { intros q Hq0. unfold py_max. destruct (Rlt_dec 0.01 q).
    - unfold Rdiv; ring.
    - replace q with 0.01 by lra. unfold Rdiv; ring. }
  assert (Hsmall : forall q, q <= 0.01 ->
            kappa * (time_horizon / py_max 0.01 q) = kappa * time_horizon / 0.01).
  { intros q Hq0. unfold py_max. destruct (Rlt_dec 0.01 q); [lra | unfold Rdiv; ring]. }
  assert (Hfloor : 0 <= tanh (kappa * time_horizon / 0.01)).
  { apply tanh_nonneg. apply Rmult_le_pos; [exact Hc | lra]. }
  apply Rplus_le_compat; [exact Htemp |].
  rewrite !Rmult_assoc. apply Rmult_le_compat_l; [lra |].
  destruct (Rle_dec q2 0.01) as [Hq2 | Hq2].
  - rewrite !Hsmall by lra. apply Rmult_le_compat_r; assumption.
  - destruct (Rle_dec 0.01 q1) as [Hq1' | Hq1'].
    + rewrite !Hperm by lra. apply scaled_tanh_monotone; lra.
    + rewrite (Hsmall q1) by lra. rewrite (Hperm q2) by lra.
      apply Rle_trans with (0.01 * tanh (kappa * time_horizon / 0.01)).
      * apply Rmult_le_compat_r; [assumption | lra].
      * apply scaled_tanh_monotone; lra.
Qed.

(** The bounds of [calculate_impact] hold for every input, every keyword
    override and every NumPy instance: the result is the clamped sum or the
    fallback [0.001]. *)
Lemma calculate_impact_bounded {np : NumPy} sigma quantity price time_horizon kwargs :
  0 <= AlmgrenChrissModel.calculate_impact sigma quantity price time_horizon kwargs
    <= 0.1.
Proof.
  unfold AlmgrenChrissModel.calculate_impact.
  apply try_except_cases; [| lra].
  intros a H. do 6 invert_bind H.
  injection H as <-. apply clamp_bounds. lra.
Qed.

(** In exact arithmetic (real numbers, with the real square root and
    hyperbolic tangent) the impact with the default parameters lies in
    [[0, 0.1]], and for [sigma >= 0], [time_horizon > 0] and [0 <= q1 <= q2]
    the impact at [q1] is at most the impact at [q2].  Binary64 keeps
    neither part as it stands: see the results on [Binary64] below. *)
Lemma exact_calculate_impact_monotone_and_bounded (sigma price time_horizon : R) :
  let impact q :=
    AlmgrenChrissModel.calculate_impact (np := real_numpy)
      sigma q price time_horizon [] in
  (forall q, 0 <= impact q <= 0.1)
  /\ (0 <= sigma -> 0 < time_horizon ->
      forall q1 q2, 0 <= q1 -> q1 <= q2 -> impact q1 <= impact q2).
Proof.
  intros impact. subst impact. cbv beta. split.
  - intros q. apply calculate_impact_bounded.
  - intros Hsigma Hth q1 q2 Hq1 Hq.
    rewrite !calculate_impact_default.
    destruct (Req_dec_T time_horizon 0); [lra |].
    apply clamp_monotone. now apply total_impact_monotone.
Qed.

(** ** Binary64: order and nan *)

Module Binary64Facts.
Import Binary64.
Local Open Scope float_scope.
Local Set Warnings "-inexact-float".

(** The comparison of the specification: swapping the arguments swaps the
    verdict, and a number equals itself. *)
Lemma SFcompare_antisym x y :
  SFcompare y x
  = match SFcompare x y with Some c => Some (CompOpp c) | None => None end.
Proof.
  destruct x as [sx | sx | | sx mx ex], y as [sy | sy | | sy my ey]; simpl;
    try reflexivity; try (destruct sx; reflexivity); try (destruct sy; reflexivity);
    try (destruct sx, sy; reflexivity).
  change (Pos.compare_cont Eq my mx) with (Pos.compare my mx).
  change (Pos.compare_cont Eq mx my) with (Pos.compare mx my).
  rewrite (Z.compare_antisym ex ey), (Pos.compare_antisym mx my).
  destruct sx, sy; try reflexivity;
    destruct (Z.compare ex ey); simpl; try reflexivity;
    destruct (Pos.compare mx my); reflexivity.
Qed.

Lemma SFcompare_refl x : x <> S754_nan -> SFcompare x x = Some Eq.
Proof.
  destruct x as [s | s | | s m e]; simpl; try congruence; intros _.
  - destruct s; reflexivity.
  - rewrite Z.compare_refl. change (Pos.compare_cont Eq m m) with (Pos.compare m m).
    rewrite Pos.compare_refl. destruct s; reflexivity.
Qed.

Lemma is_nan_spec x : is_nan x = true <-> Prim2SF x = S754_nan.
Proof.
  unfold is_nan. rewrite FloatAxioms.eqb_spec. unfold SFeqb. split.
  - intros H. destruct (Prim2SF x) eqn:E; try reflexivity;
      rewrite SFcompare_refl in H by congruence; discriminate.
  - intros ->. reflexivity.
Qed.

Lemma ltb_nan_l x y : is_nan x = true -> (x <? y) = false.
Proof.
  intros H. apply is_nan_spec in H. rewrite FloatAxioms.ltb_spec, H. reflexivity.
Qed.

Lemma ltb_nan_r x y : is_nan y = true -> (x <? y) = false.
Proof.
  intros H. apply is_nan_spec in H. rewrite FloatAxioms.ltb_spec, H.
  unfold SFltb. destruct (Prim2SF x); reflexivity.
Qed.


Lemma leb_refl x : is_nan x = false -> (x <=? x) = true.
Proof.
  intros H. rewrite FloatAxioms.leb_spec. unfold SFleb.
  rewrite SFcompare_refl; [reflexivity |]. rewrite <- is_nan_spec. congruence.
Qed.

(** The order is total on numbers. *)
Lemma not_ltb_leb x y :
  is_nan x = false -> is_nan y = false -> (x <? y) = false -> (y <=? x) = true.
Proof.
  intros Hx Hy. rewrite FloatAxioms.ltb_spec, FloatAxioms.leb_spec.
  unfold SFltb, SFleb.
  rewrite (SFcompare_antisym (Prim2SF x) (Prim2SF y)).
  assert (Nx : Prim2SF x <> S754_nan) by (rewrite <- is_nan_spec; congruence).
  assert (Ny : Prim2SF y <> S754_nan) by (rewrite <- is_nan_spec; congruence).
  destruct (SFcompare (Prim2SF x) (Prim2SF y)) as [[| |]|] eqn:E; simpl; try congruence.
  exfalso. destruct (Prim2SF x), (Prim2SF y); simpl in E; congruence.
Qed.


(** [max(min(t, hi), lo)], the other nesting. *)
Lemma clamp_max_min (t lo hi : float) :
  is_nan lo = false -> is_nan hi = false -> (lo <=? hi) = true ->
  let r := py_max (py_min t hi) lo in
  if is_nan t then is_nan r = true else within lo hi r = true.
Proof.
  intros Hlo Hhi Hle r. subst r. unfold py_min, py_max, within.
  destruct (is_nan t) eqn:Ht.
  - rewrite (ltb_nan_r hi t Ht), (ltb_nan_l t lo Ht). exact Ht.
  - destruct (hi <? t) eqn:E1.
    + destruct (hi <? lo) eqn:E2.
      * exfalso. revert E2 Hle.
        rewrite FloatAxioms.ltb_spec, FloatAxioms.leb_spec. unfold SFltb, SFleb.
        rewrite (SFcompare_antisym (Prim2SF hi) (Prim2SF lo)).
        destruct (SFcompare (Prim2SF hi) (Prim2SF lo)) as [[| |]|]; simpl; congruence.
      * now rewrite Hle, leb_refl.
    + destruct (t <? lo) eqn:E2.
      * now rewrite leb_refl, Hle.
      * now rewrite !not_ltb_leb.
Qed.

(** What exceeds 0.01 is not a zero: the floored divisor never raises. *)
Lemma ltb_nonzero y : (0.01 <? y) = true -> (y =? 0) = false.
Proof.
  rewrite FloatAxioms.ltb_spec, FloatAxioms.eqb_spec. unfold SFltb, SFeqb.
  replace (Prim2SF 0.01) with (S754_finite false 5764607523034235 (-59)%Z)
    by (vm_compute; reflexivity).
  replace (Prim2SF 0) with (S754_zero false) by (vm_compute; reflexivity).
  destruct (Prim2SF y) as [s | s | | s m e]; simpl; try congruence;
    destruct s; simpl; congruence.
Qed.

Lemma py_max_floor_nonzero q : (py_max 0.01 q =? 0) = false.
Proof.
  unfold py_max. destruct (0.01 <? q) eqn:E.
  - now apply ltb_nonzero.
  - vm_compute. reflexivity.
Qed.

Section Impact.
Variable np_tanh : float -> float.

(** With the default parameters the model raises only on a zero
    [time_horizon]; otherwise it returns the clamped sum of its two terms. *)
Lemma calculate_impact_eq (sigma quantity price time_horizon : float) :
  AlmgrenChrissModel.calculate_impact np_tanh sigma quantity price time_horizon []
  = if time_horizon =? 0 then 0.001
    else
      let kappa := PrimFloat.sqrt (0.1 * sigma * sigma / (2 * 0.01)) in
      let tau := time_horizon / py_max 0.01 quantity in
      py_min (py_max (0.005 * quantity / time_horizon
                      + 0.01 * quantity * np_tanh (kappa * tau)) 0) 0.1.
Proof.
  unfold AlmgrenChrissModel.calculate_impact, AlmgrenChrissModel.default_params.
  cbn [dict_update dict_get dict_find dict_set fold_left bind String.eqb Ascii.eqb
       Bool.eqb andb fst snd].
  unfold truediv at 1.
  replace (2 * 0.01 =? 0) with false by (vm_compute; reflexivity).
  cbn [bind]. unfold truediv. rewrite py_max_floor_nonzero. cbn [bind].
  destruct (time_horizon =? 0); reflexivity.
Qed.


End Impact.

(** The slippage estimate is 0 on an empty side, and otherwise the
    handler's 0.001 or a value that passed [max(min(., 0.05), 0)]. *)
Lemma estimate_cases (P : float -> Prop) (orderbook : OrderBook.t)
    (quantity : float) (is_buy : bool) :
  P 0 -> P 0.001 -> (forall t, P (py_max (py_min t 0.05) 0)) ->
  P (SlippageModel.estimate orderbook quantity is_buy).
Proof.
  intros Z F K. unfold SlippageModel.estimate.
  destruct (if is_buy then OrderBook.asks orderbook else OrderBook.bids orderbook)
    as [| first others]; [exact Z |].
  destruct (SlippageModel.walk_levels (first :: others) quantity 0)
    as [[remaining_qty total_cost] | e]; [| exact F].
  unfold truediv. cbn [bind try_except].
  repeat match goal with
  | |- P (try_except (bind (bind (if ?c then _ else _) _) _) _) =>
      destruct c; cbn [bind try_except]
  | |- P (try_except (bind (if ?c then _ else _) _) _) =>
      destruct c; cbn [bind try_except]
  | |- P (try_except (if ?c then _ else _) _) =>
      destruct c; cbn [bind try_except]
  end; first [exact F | apply K].
Qed.

Lemma estimate_range (orderbook : OrderBook.t) (quantity : float) (is_buy : bool) :
  let r := SlippageModel.estimate orderbook quantity is_buy in
  is_nan r = true \/ within 0 0.05 r = true.
Proof.
  cbv zeta. apply estimate_cases.
  - right. vm_compute. reflexivity.
  - right. vm_compute. reflexivity.
  - intros t. pose proof (clamp_max_min t 0 0.05 eq_refl eq_refl eq_refl) as H.
    cbv zeta in H. destruct (is_nan t); [left | right]; exact H.
Qed.

Lemma estimate_empty_side (orderbook : OrderBook.t) (quantity : float) (is_buy : bool) :
  (if is_buy then OrderBook.asks orderbook else OrderBook.bids orderbook) = [] ->
  SlippageModel.estimate orderbook quantity is_buy = 0.
Proof. intros H. unfold SlippageModel.estimate. rewrite H. reflexivity. Qed.

End Binary64Facts.

(** ** The models in binary64: what holds of their results *)

Section Binary64Results.
Local Open Scope float_scope.
Local Set Warnings "-inexact-float".



(** C5 (the failing input).  On the scenario's snapshot, whose ask side is
    not empty, a buy of quantity inf walks both levels, prices the remainder
    at inf, divides inf by inf, and returns nan, which is outside
    [[0, 0.05]]. *)
Theorem estimate_nan_at_infinite_quantity :
  let r := Binary64.SlippageModel.estimate Binary64.scenario_book infinity true in
  Binary64.OrderBook.asks Binary64.scenario_book <> []
  /\ is_nan r = true /\ Binary64.within 0 0.05 r = false.
Proof.
  cbv zeta. split; [discriminate |]. split; vm_compute; reflexivity.
Qed.

(** X9.  In binary64, with the default parameters, neither
    [(gamma * sigma * sigma) / (2 * eta)] nor
    [time_horizon / max(0.01, quantity)] can raise: the model takes its
    fallback 0.001 when [time_horizon] is a zero, and returns the clamped
    sum of the two terms otherwise, whatever [np.tanh] returns. *)
Theorem calculate_impact_binary64
    (np_tanh : float -> float) (sigma quantity price time_horizon : float) :
  Binary64.AlmgrenChrissModel.calculate_impact np_tanh sigma quantity price
    time_horizon []
  = if time_horizon =? 0 then 0.001
    else
      let kappa := PrimFloat.sqrt (0.1 * sigma * sigma / (2 * 0.01)) in
      let tau := time_horizon / Binary64.py_max 0.01 quantity in
      Binary64.py_min
        (Binary64.py_max
           (0.005 * quantity / time_horizon
            + 0.01 * quantity * np_tanh (kappa * tau)) 0) 0.1.
Proof. apply Binary64Facts.calculate_impact_eq. Qed.

(** X10.  In binary64 [estimate] returns 0 when the side it reads is empty;
    otherwise its result is nan or lies in [[0, 0.05]]. *)
Theorem estimate_binary64_zero_or_in_range_unless_nan
    (orderbook : Binary64.OrderBook.t) (quantity : float) (is_buy : bool) :
  let levels :=
    if is_buy then Binary64.OrderBook.asks orderbook
    else Binary64.OrderBook.bids orderbook in
  let r := Binary64.SlippageModel.estimate orderbook quantity is_buy in
  match levels with
  | [] => r = 0
  | _ :: _ => is_nan r = true \/ Binary64.within 0 0.05 r = true
  end.
Proof.
  cbv zeta.
  destruct (if is_buy then Binary64.OrderBook.asks orderbook
            else Binary64.OrderBook.bids orderbook) eqn:E.
  - now apply Binary64Facts.estimate_empty_side.
  - apply Binary64Facts.estimate_range.
Qed.

End Binary64Results.

(** ** SlippageModel.estimate *)

(** On the scenario book a buy of 100 fills inside the first ask level and
    the adjusted slippage is capped at [0.05]: the handler is not reached. *)
Example estimate_scenario :
  SlippageModel.estimate (scenario_book "2025-05-01T00:00:00Z" 7) 100 true = 0.05.
Proof.
  unfold SlippageModel.estimate. simpl.
  decide_reals. rewrite truediv_nonzero by lra. simpl.
  decide_reals. rewrite (truediv_nonzero _ 100) by lra. simpl.
  rewrite (truediv_nonzero _ 100.5) by lra. simpl.
  rewrite (truediv_nonzero 1) by lra. simpl.
  unfold py_max, py_min. decide_reals; lra.
Qed.

(** ** FeeCalculator.calculate *)

Lemma default_tier_present :
  dict_get FeeCalculator.fee_tiers "VIP0" = Ok (0.0008, 0.0010).
Proof. reflexivity. Qed.

Lemma calculate_known_tier tier maker taker quantity maker_proportion :
  dict_find FeeCalculator.fee_tiers tier = Some (maker, taker) ->
  FeeCalculator.calculate tier quantity maker_proportion
  = quantity * (maker * maker_proportion + taker * (1 - maker_proportion)).
Proof.
  intros H. unfold FeeCalculator.calculate.
  rewrite default_tier_present. unfold dict_get_default. rewrite H.
  reflexivity.
Qed.

(** C6.  For a tier of the table (the six tiers VIP0 to VIP5) [calculate]
    returns [quantity * (maker * p + taker * (1 - p))] with the rates of that
    tier: [quantity * maker] at [p = 1] and [quantity * taker] at [p = 0].
    The maker rate of VIP5 is [-0.0001] and is used as it is, so the fee of
    a pure maker order of 100 at VIP5 is negative. *)
Theorem calculate_weighted_fee :
  map fst FeeCalculator.fee_tiers = ["VIP0"; "VIP1"; "VIP2"; "VIP3"; "VIP4"; "VIP5"]
  /\ (forall tier maker taker quantity p,
        dict_find FeeCalculator.fee_tiers tier = Some (maker, taker) ->
        FeeCalculator.calculate tier quantity p
        = quantity * (maker * p + taker * (1 - p))
        /\ FeeCalculator.calculate tier quantity 1 = quantity * maker
        /\ FeeCalculator.calculate tier quantity 0 = quantity * taker)
  /\ dict_find FeeCalculator.fee_tiers "VIP5" = Some (-0.0001, 0.0001)
  /\ FeeCalculator.calculate "VIP5" 100 1 = 100 * -0.0001
  /\ FeeCalculator.calculate "VIP5" 100 1 < 0.
Proof.
  split; [reflexivity |].
  split.
  { intros tier maker taker quantity p H.
    rewrite !(calculate_known_tier tier maker taker) by exact H.
    repeat split; ring. }
  assert (H5 : dict_find FeeCalculator.fee_tiers "VIP5" = Some (-0.0001, 0.0001))
    by reflexivity.
  split; [exact H5 |].
  rewrite (calculate_known_tier "VIP5" _ _ 100 1 H5).
  split; lra.
Qed.

Lemma calculate_weighted_fee_witness :
  FeeCalculator.calculate "VIP2" 250 0.25
  = 250 * (0.0004 * 0.25 + 0.0006 * (1 - 0.25)).
Proof.
  apply (proj1 (proj2 calculate_weighted_fee) "VIP2" 0.0004 0.0006 250 0.25).
  reflexivity.
Defined.

(** ** PerformanceTracker *)

Lemma tl_skipn {A : Type} (k : nat) (l : list A) : tl (skipn k l) = skipn (S k) l.
Proof.
  revert l. induction k as [|k IH]; intros [|x l]; simpl; auto.
Qed.

Lemma most_recent_length {A : Type} (n : nat) (l : list A) :
  List.length (most_recent n l) = Nat.min n (List.length l).
Proof. unfold most_recent. rewrite length_skipn. lia. Qed.

(** Appending to the window and evicting on overflow keeps the window the
    most recent samples. *)
Lemma push_most_recent (w : Z) (l : list R) (x : R) :
  (0 <= w)%Z ->
  PerformanceTracker.push w (most_recent (Z.to_nat w) l) x
  = most_recent (Z.to_nat w) (l ++ [x]).
Proof.
  intros Hw. unfold PerformanceTracker.push.
  rewrite length_app, most_recent_length. simpl.
  unfold most_recent. rewrite length_app. simpl.
  assert (Hevict : tl (skipn (List.length l - Z.to_nat w) l ++ [x])
                   = skipn (S (List.length l - Z.to_nat w)) (l ++ [x])).
  { rewrite <- tl_skipn. f_equal. rewrite skipn_app.
    replace (List.length l - Z.to_nat w - List.length l)%nat with 0%nat by lia.
    reflexivity. }
  destruct (Nat.min_spec (Z.to_nat w) (List.length l)) as [[Hlt ->] | [Hge ->]];
    match goal with |- context [(?a >? w)%Z] => destruct (Z.gtb_spec a w) end;
    try lia.
  - rewrite Hevict. f_equal. lia.
  - rewrite Hevict. f_equal. lia.
  - replace (List.length l - Z.to_nat w)%nat with 0%nat by lia.
    replace (List.length l + 1 - Z.to_nat w)%nat with 0%nat by lia.
    reflexivity.
Qed.

Lemma run_calls_windows (calls : list tracker_call) :
  forall (self : PerformanceTracker.t) (pushed_durations pushed_intervals : list R),
    (0 <= PerformanceTracker.window_size self)%Z ->
    PerformanceTracker.processing_times self
    = most_recent (Z.to_nat (PerformanceTracker.window_size self)) pushed_durations ->
    PerformanceTracker.update_times self
    = most_recent (Z.to_nat (PerformanceTracker.window_size self)) pushed_intervals ->
    let final := run_calls self calls in
    PerformanceTracker.window_size final = PerformanceTracker.window_size self
    /\ PerformanceTracker.processing_times final
       = most_recent (Z.to_nat (PerformanceTracker.window_size self))
           (pushed_durations ++ durations calls)
    /\ PerformanceTracker.update_times final
       = most_recent (Z.to_nat (PerformanceTracker.window_size self))
           (pushed_intervals
            ++ intervals (PerformanceTracker.last_timestamp self) calls).
Proof.
  induction calls as [|c calls IH]; intros self pd pi Hw Hp Hu; simpl.
  - rewrite !app_nil_r. auto.
  - destruct c as [duration_ms | now]; simpl.
    + specialize (IH (PerformanceTracker.track_processing self duration_ms)
                     (pd ++ [duration_ms]) pi).
      simpl in IH. rewrite <- !app_assoc in IH. simpl in IH.
      apply IH; auto.
      rewrite Hp. now apply push_most_recent.
    + specialize (IH (PerformanceTracker.track_update self now)
                     pd (pi ++ [now - PerformanceTracker.last_timestamp self])).
      simpl in IH. rewrite <- !app_assoc in IH. simpl in IH.
      apply IH; auto.
      rewrite Hu. now apply push_most_recent.
Qed.

(** C9.  For a tracker built with a window size [w >= 0], after any sequence
    of [track_processing] and [track_update] calls each rolling sequence holds
    at most [w] entries and is exactly the [w] most recent samples pushed to
    it, in push order; with [w = 3], five processing samples leave the last
    three. *)
Theorem tracker_windows_hold_most_recent :
  (forall (w : Z) (created : R) (calls : list tracker_call),
      (0 <= w)%Z ->
      let final := run_calls (PerformanceTracker.init w created) calls in
      (Z.of_nat (List.length (PerformanceTracker.processing_times final)) <= w)%Z
      /\ (Z.of_nat (List.length (PerformanceTracker.update_times final)) <= w)%Z
      /\ PerformanceTracker.processing_times final
         = most_recent (Z.to_nat w) (durations calls)
      /\ PerformanceTracker.update_times final
         = most_recent (Z.to_nat w) (intervals created calls))
  /\ (forall (created d1 d2 d3 d4 d5 : R),
        PerformanceTracker.processing_times
          (run_calls (PerformanceTracker.init 3 created)
             [TrackProcessing d1; TrackProcessing d2; TrackProcessing d3;
              TrackProcessing d4; TrackProcessing d5])
        = [d3; d4; d5]).
Proof.
  split; [| reflexivity].
  intros w created calls Hw final.
  destruct (run_calls_windows calls (PerformanceTracker.init w created) [] [])
    as (_ & Hp & Hu); try assumption; try (destruct (Z.to_nat w); reflexivity).
  simpl in Hp, Hu. fold final in Hp, Hu.
  rewrite Hp, Hu, !most_recent_length. repeat split; lia.
Qed.

Lemma tracker_windows_hold_most_recent_witness :
  PerformanceTracker.update_times
    (run_calls (PerformanceTracker.init 2 0)
       [TrackUpdate 1; TrackProcessing 5; TrackUpdate 3; TrackUpdate 6])
  = most_recent 2 [1 - 0; 3 - 1; 6 - 3].
Proof.
  apply (proj1 tracker_windows_hold_most_recent 2%Z 0
           [TrackUpdate 1; TrackProcessing 5; TrackUpdate 3; TrackUpdate 6]).
  lia.
Defined.

(** ** TradeSimulator.simulate *)

(** The simulator is bound to the order book as soon as one update has been
    accepted, and not before. *)
Lemma run_simulator_bound pyfloat (feed : list Server.Message) :
  forall s,
    Server.simulator_bound (Server.run pyfloat s feed)
    = Server.simulator_bound s || existsb (fun accepted => accepted) (Server.verdicts pyfloat s feed).
Proof.
  induction feed as [|m feed IH]; intros s; simpl.
  - now rewrite orb_false_r.
  - unfold Server.run in *. simpl. rewrite IH.
    unfold Server.on_message.
    destruct (OrderBook.update pyfloat (Server.orderbook s) (Server.data m)
                (Server.update_clock m)) as [book accepted].
    destruct accepted; simpl.
    + now rewrite orb_true_r.
    + reflexivity.
Qed.

(** With an order book whose [mid_price] is not zero, [simulate] returns the
    estimate assembled from the four models and records its latency. *)
Lemma simulate_succeeds {np : NumPy} (self : TradeSimulator.t) (book : OrderBook.t)
    (exchange symbol order_type : string) (quantity volatility : R)
    (fee_tier : string) (start_time end_time : R) (now_iso : string) :
  TradeSimulator.orderbook self = Some book ->
  OrderBook.mid_price book <> 0 ->
  TradeSimulator.simulate self exchange symbol order_type quantity volatility
    fee_tier start_time end_time now_iso
  = (TradeSimulator.mk (Some book)
       (PerformanceTracker.track_processing
          (TradeSimulator.performance_tracker self)
          ((end_time - start_time) * 1000)),
     Estimate
       {| expected_slippage := SlippageModel.estimate book quantity true;
          expected_fees :=
            FeeCalculator.calculate fee_tier quantity
              (MakerTakerModel.predict book quantity);
          market_impact :=
            AlmgrenChrissModel.calculate_impact volatility
              (quantity / OrderBook.mid_price book) (OrderBook.mid_price book) 1.0 [];
          net_cost :=
            quantity * SlippageModel.estimate book quantity true
            + FeeCalculator.calculate fee_tier quantity
                (MakerTakerModel.predict book quantity)
            + quantity
              * AlmgrenChrissModel.calculate_impact volatility
                  (quantity / OrderBook.mid_price book)
                  (OrderBook.mid_price book) 1.0 [];
          maker_taker_proportion := MakerTakerModel.predict book quantity;
          internal_latency := (end_time - start_time) * 1000;
          estimate_timestamp := now_iso |}).
Proof.
  intros Hbook Hmid. unfold TradeSimulator.simulate. rewrite Hbook.
  rewrite truediv_nonzero by exact Hmid. reflexivity.
Qed.

(** C7.  While [trade_simulator.orderbook] is [None], [simulate] returns the
    payload [{"error": "No orderbook data available"}] whatever its
    arguments, and leaves the simulator as it is; this is the state of the
    server for as long as every [orderbook.update] of the feed has returned
    [False]. *)
Theorem simulate_without_orderbook {np : NumPy} :
  (forall (self : TradeSimulator.t) (exchange symbol order_type : string)
          (quantity volatility : R) (fee_tier : string)
          (start_time end_time : R) (now_iso : string),
      TradeSimulator.orderbook self = None ->
      TradeSimulator.simulate self exchange symbol order_type quantity volatility
        fee_tier start_time end_time now_iso
      = (self, Error "No orderbook data available"))
  /\ (forall (pyfloat : string -> option R) (created : R)
             (feed : list Server.Message)
             (exchange symbol order_type : string)
             (quantity volatility : R) (fee_tier : string)
             (start_time end_time : R) (now_iso : string),
        Forall (fun accepted => accepted = false)
          (Server.verdicts pyfloat (Server.init created) feed) ->
        snd (TradeSimulator.simulate
               (Server.trade_simulator (Server.run pyfloat (Server.init created) feed))
               exchange symbol order_type quantity volatility
               fee_tier start_time end_time now_iso)
        = Error "No orderbook data available").
Proof.
  split.
  - intros self exchange symbol order_type quantity volatility fee_tier
      start_time end_time now_iso Hnone.
    unfold TradeSimulator.simulate. now rewrite Hnone.
  - intros pyfloat created feed exchange symbol order_type quantity volatility
      fee_tier start_time end_time now_iso Hall.
    unfold TradeSimulator.simulate, Server.trade_simulator. simpl.
    rewrite run_simulator_bound. simpl.
    replace (existsb (fun accepted => accepted)
               (Server.verdicts pyfloat (Server.init created) feed)) with false.
    + reflexivity.
    + symmetry. induction Hall as [|accepted rest Hx _ IH]; simpl; [reflexivity |].
      now rewrite Hx, IH.
Qed.

Lemma simulate_without_orderbook_witness :
  TradeSimulator.simulate (np := real_numpy) (TradeSimulator.init 0)
    "OKX" "BTC-USDT" "market" 100 0.02 "VIP0" 1 2 "2025-05-01T00:00:02"
  = (TradeSimulator.init 0, Error "No orderbook data available")
  /\ snd (TradeSimulator.simulate (np := real_numpy)
            (Server.trade_simulator
               (Server.run decimal_float (Server.init 0)
                  [{| Server.data := half_bad_record;
                      Server.update_clock := 1;
                      Server.track_clock := 2 |}]))
            "OKX" "BTC-USDT" "market" 100 0.02 "VIP0" 3 4 "2025-05-01T00:00:02")
     = Error "No orderbook data available".
Proof.
  split.
  - apply (proj1 (simulate_without_orderbook (np := real_numpy))). reflexivity.
  - apply (proj2 (simulate_without_orderbook (np := real_numpy))).
    repeat constructor.
Defined.

(** C8.  When [simulate] returns an estimate, its [net_cost] is
    [quantity * expected_slippage + expected_fees + quantity * market_impact],
    and these three fields are what [estimate], [calculate] and
    [calculate_impact] return on the order book of the simulator in that
    call. *)
Theorem simulate_net_cost {np : NumPy} (self self' : TradeSimulator.t)
    (exchange symbol order_type : string) (quantity volatility : R)
    (fee_tier : string) (start_time end_time : R) (now_iso : string)
    (c : CostEstimate) :
  TradeSimulator.simulate self exchange symbol order_type quantity volatility
    fee_tier start_time end_time now_iso = (self', Estimate c) ->
  net_cost c
  = quantity * expected_slippage c + expected_fees c + quantity * market_impact c
  /\ exists book,
       TradeSimulator.orderbook self = Some book
       /\ expected_slippage c = SlippageModel.estimate book quantity true
       /\ maker_taker_proportion c = MakerTakerModel.predict book quantity
       /\ expected_fees c
          = FeeCalculator.calculate fee_tier quantity (maker_taker_proportion c)
       /\ market_impact c
          = AlmgrenChrissModel.calculate_impact volatility
              (quantity / OrderBook.mid_price book) (OrderBook.mid_price book) 1.0 [].
Proof.
  unfold TradeSimulator.simulate.
  destruct (TradeSimulator.orderbook self) as [book |]; [| discriminate].
  unfold truediv.
  destruct (Req_dec_T (OrderBook.mid_price book) 0); simpl; [discriminate |].
  intros H. injection H as _ <-. simpl.
  split; [reflexivity |]. exists book. repeat split.
Qed.

Lemma simulate_net_cost_witness :
  exists c,
    snd (TradeSimulator.simulate (np := real_numpy)
           (TradeSimulator.mk (Some (scenario_book "2025-05-01T00:00:00Z" 7))
              (PerformanceTracker.init 100 0))
           "OKX" "BTC-USDT" "market" 100 0.02 "VIP0" 1 2 "2025-05-01T00:00:02")
    = Estimate c
    /\ net_cost c
       = 100 * expected_slippage c + expected_fees c + 100 * market_impact c.
Proof.
  assert (Hmid : OrderBook.mid_price (scenario_book "2025-05-01T00:00:00Z" 7) <> 0)
    by (simpl; lra).
  pose proof (simulate_succeeds (np := real_numpy)
                (TradeSimulator.mk (Some (scenario_book "2025-05-01T00:00:00Z" 7))
                   (PerformanceTracker.init 100 0))
                (scenario_book "2025-05-01T00:00:00Z" 7)
                "OKX" "BTC-USDT" "market" 100 0.02 "VIP0" 1 2
                "2025-05-01T00:00:02" eq_refl Hmid) as Hrun.
  eexists. split.
  - rewrite Hrun. reflexivity.
  - exact (proj1 (simulate_net_cost (np := real_numpy) _ _ _ _ _ _ _ _ _ _ _ _ Hrun)).
Defined.

(** An accepted first update from a record with an empty side binds the
    simulator to an order book whose [mid_price] is still [0]. *)
Lemma first_update_with_empty_side pyfloat created (m : Server.Message) :
  snd (OrderBook.update pyfloat (OrderBook.init "OKX" "BTC-USDT-SWAP")
         (Server.data m) (Server.update_clock m)) = true ->
  feed_asks (Server.data m) = [] \/ feed_bids (Server.data m) = [] ->
  exists book,
    TradeSimulator.orderbook
      (Server.trade_simulator (Server.on_message pyfloat (Server.init created) m))
    = Some book
    /\ OrderBook.mid_price book = 0.
Proof.
  intros Hacc Hempty.
  unfold Server.on_message, Server.init. cbn [Server.orderbook].
  revert Hacc.
  destruct (update_cases pyfloat (OrderBook.init "OKX" "BTC-USDT-SWAP")
              (Server.data m) (Server.update_clock m))
    as [Ha | pa Ha Hb | pa pb ? ? ? ? ? ? Ha Hb Hsa Hsb
        | pa pb ? ? ? ? ? ? Ha Hb Hsa Hsb | pa pb Ha Hb];
    simpl; try discriminate; intros _.
  - exfalso. destruct Hempty as [E | E]; rewrite E in *; simpl in *.
    + injection Ha as <-. discriminate.
    + injection Hb as <-. discriminate.
  - eexists. split; reflexivity.
Qed.

(** C10.  When the order book of the simulator has [mid_price = 0], the
    conversion [quantity / mid_price] raises, the handler of [simulate]
    catches it, and the call returns the error payload with the message of
    the exception, for every quantity; no estimate is built and the tracker
    records nothing. *)
Theorem simulate_zero_mid_price_is_error {np : NumPy}
    (self : TradeSimulator.t) (book : OrderBook.t)
    (exchange symbol order_type : string) (quantity volatility : R)
    (fee_tier : string) (start_time end_time : R) (now_iso : string) :
  TradeSimulator.orderbook self = Some book ->
  OrderBook.mid_price book = 0 ->
  TradeSimulator.simulate self exchange symbol order_type quantity volatility
    fee_tier start_time end_time now_iso
  = (self, Error (str ZeroDivisionError)).
Proof.
  intros Hbook Hmid. unfold TradeSimulator.simulate.
  rewrite Hbook, Hmid, truediv_zero. reflexivity.
Qed.

Lemma simulate_zero_mid_price_is_error_witness :
  snd (TradeSimulator.simulate (np := real_numpy)
         (Server.trade_simulator
            (Server.on_message decimal_float (Server.init 0) asks_only_message))
         "OKX" "BTC-USDT" "market" 100 0.02 "VIP0" 12 13 "2025-05-01T00:00:02")
  = Error "float division by zero".
Proof.
  destruct (first_update_with_empty_side decimal_float 0 asks_only_message
              eq_refl (or_intror eq_refl)) as (book & Hbook & Hmid).
  rewrite (simulate_zero_mid_price_is_error (np := real_numpy) _ book
             "OKX" "BTC-USDT" "market" 100 0.02 "VIP0" 12 13
             "2025-05-01T00:00:02" Hbook Hmid).
  reflexivity.
Defined.

(** ** More on OrderBook.update *)



(** X2.  After an accepted update from a record with asks and bids,
    [mid_price] is the mean of the price of the first stored ask and the
    price of the first stored bid, it is not zero, and [spread_pct] is their
    difference in percent of it. *)
Theorem accepted_update_mid_and_spread
    (pyfloat : string -> option R) (self : OrderBook.t)
    (data : FeedRecord) (now : R) :
  snd (OrderBook.update pyfloat self data now) = true ->
  feed_asks data <> [] -> feed_bids data <> [] ->
  let self' := fst (OrderBook.update pyfloat self data now) in
  exists best_ask ask_size asks' best_bid bid_size bids',
    OrderBook.asks self' = (best_ask, ask_size) :: asks'
    /\ OrderBook.bids self' = (best_bid, bid_size) :: bids'
    /\ OrderBook.mid_price self' = (best_ask + best_bid) / 2
    /\ OrderBook.mid_price self' <> 0
    /\ OrderBook.spread_pct self'
       = (best_ask - best_bid) / OrderBook.mid_price self' * 100.
Proof.
  intros Hacc Hasks Hbids self'. subst self'. revert Hacc.
  destruct (update_cases pyfloat self data now)
    as [Ha | pa Ha Hb | pa pb ? ? ? ? ? ? Ha Hb Hsa Hsb
        | pa pb best_ask ask_size asks' best_bid bid_size bids' Ha Hb Hsa Hsb Hmid
        | pa pb Ha Hb Hempty];
    simpl; try discriminate; intros _.
  - exists best_ask, ask_size, asks', best_bid, bid_size, bids'.
    repeat split; auto.
  - exfalso. destruct Hempty as [-> | ->].
    + destruct (feed_asks data) as [|[p s] rest]; [congruence |].
      simpl in Ha. unfold bind in Ha.
      destruct (OrderBook.float pyfloat p); try discriminate.
      destruct (OrderBook.float pyfloat s); try discriminate.
      destruct (OrderBook.parse_levels pyfloat rest); discriminate.
    + destruct (feed_bids data) as [|[p s] rest]; [congruence |].
      simpl in Hb. unfold bind in Hb.
      destruct (OrderBook.float pyfloat p); try discriminate.
      destruct (OrderBook.float pyfloat s); try discriminate.
      destruct (OrderBook.parse_levels pyfloat rest); discriminate.
Qed.

Lemma accepted_update_mid_and_spread_witness :
  exists best_ask best_bid,
    OrderBook.mid_price
      (fst (OrderBook.update decimal_float (OrderBook.init "OKX" "BTC-USDT-SWAP")
              (scenario_record "2025-05-01T00:00:00Z") 7))
    = (best_ask + best_bid) / 2.
Proof.
  assert (Hacc : snd (OrderBook.update decimal_float (OrderBook.init "OKX" "BTC-USDT-SWAP")
                        (scenario_record "2025-05-01T00:00:00Z") 7) = true)
    by (rewrite scenario_update; reflexivity).
  destruct (accepted_update_mid_and_spread decimal_float
              (OrderBook.init "OKX" "BTC-USDT-SWAP")
              (scenario_record "2025-05-01T00:00:00Z") 7 Hacc)
    as (best_ask & ask_size & asks' & best_bid & bid_size & bids' & H);
    try discriminate.
  exists best_ask, best_bid. apply H.
Defined.

Lemma cancelling_update self now :
  OrderBook.update decimal_float self cancelling_record now
  = (OrderBook.mk (OrderBook.exchange self) (OrderBook.symbol self)
       [(1, 1)] [(-1, 1)] "2025-05-01T00:00:03Z" ((1 + -1) / 2)
       (OrderBook.spread_pct self) (OrderBook.ask_depth self)
       (OrderBook.bid_depth self) (OrderBook.last_update_time self), false).
Proof.
  unfold_update. simpl. unfold truediv. decide_reals. reflexivity.
Qed.

(** X3.  A record whose tokens all parse is rejected only through the
    division by a zero mid price: [update] then returns [False] with
    [timestamp], [asks] and [bids] (sorted) replaced and [mid_price] set to
    [0], while [spread_pct], the depths and [last_update_time] keep their
    values. *)
Theorem parseable_record_rejected_on_zero_mid
    (pyfloat : string -> option R) (self : OrderBook.t)
    (data : FeedRecord) (now : R) :
  ~ unparseable pyfloat (feed_asks data) ->
  ~ unparseable pyfloat (feed_bids data) ->
  snd (OrderBook.update pyfloat self data now) = false ->
  let self' := fst (OrderBook.update pyfloat self data now) in
  OrderBook.mid_price self' = 0
  /\ OrderBook.timestamp self' = feed_timestamp data
  /\ (exists parsed_asks parsed_bids,
        OrderBook.parse_levels pyfloat (feed_asks data) = Ok parsed_asks
        /\ OrderBook.parse_levels pyfloat (feed_bids data) = Ok parsed_bids
        /\ OrderBook.asks self' = OrderBook.sort_levels false parsed_asks
        /\ OrderBook.bids self' = OrderBook.sort_levels true parsed_bids)
  /\ OrderBook.spread_pct self' = OrderBook.spread_pct self
  /\ OrderBook.ask_depth self' = OrderBook.ask_depth self
  /\ OrderBook.bid_depth self' = OrderBook.bid_depth self
  /\ OrderBook.last_update_time self' = OrderBook.last_update_time self.
Proof.
  intros Hasks Hbids Hrej self'. subst self'. revert Hrej.
  destruct (update_cases pyfloat self data now)
    as [Ha | pa Ha Hb | pa pb ? ? ? ? ? ? Ha Hb Hsa Hsb Hmid
        | pa pb ? ? ? ? ? ? Ha Hb Hsa Hsb Hmid | pa pb Ha Hb Hempty];
    simpl; try discriminate; try contradiction; intros _.
  repeat split; eauto 8.
Qed.

Lemma parseable_record_rejected_on_zero_mid_witness :
  OrderBook.mid_price
    (fst (OrderBook.update decimal_float (scenario_book "2025-05-01T00:00:00Z" 7)
            cancelling_record 10)) = 0.
Proof.
  apply (parseable_record_rejected_on_zero_mid decimal_float
           (scenario_book "2025-05-01T00:00:00Z" 7) cancelling_record 10).
  - intros (t & Hin & Hnone). simpl in Hin.
    destruct Hin as [<- | [<- | []]]; discriminate.
  - intros (t & Hin & Hnone). simpl in Hin.
    destruct Hin as [<- | [<- | []]]; discriminate.
  - rewrite cancelling_update. reflexivity.
Defined.

(** [update] in closed form, by the way its body ends. *)
Lemma update_eq pyfloat self data now :
  OrderBook.update pyfloat self data now
  = match OrderBook.parse_levels pyfloat (feed_asks data) with
    | Raise _ => (OrderBook.set_timestamp (feed_timestamp data) self, false)
    | Ok parsed_asks =>
        match OrderBook.parse_levels pyfloat (feed_bids data) with
        | Raise _ =>
            (OrderBook.set_asks parsed_asks
               (OrderBook.set_timestamp (feed_timestamp data) self), false)
        | Ok parsed_bids =>
            let sorted_asks := OrderBook.sort_levels false parsed_asks in
            let sorted_bids := OrderBook.sort_levels true parsed_bids in
            match sorted_asks, sorted_bids with
            | (best_ask, _) :: _, (best_bid, _) :: _ =>
                if Req_dec_T ((best_ask + best_bid) / 2) 0 then
                  (OrderBook.mk (OrderBook.exchange self) (OrderBook.symbol self)
                     sorted_asks sorted_bids (feed_timestamp data)
                     ((best_ask + best_bid) / 2) (OrderBook.spread_pct self)
                     (OrderBook.ask_depth self) (OrderBook.bid_depth self)
                     (OrderBook.last_update_time self), false)
                else
                  (OrderBook.mk (OrderBook.exchange self) (OrderBook.symbol self)
                     sorted_asks sorted_bids (feed_timestamp data)
                     ((best_ask + best_bid) / 2)
                     ((best_ask - best_bid) / ((best_ask + best_bid) / 2) * 100)
                     (OrderBook.depth sorted_asks) (OrderBook.depth sorted_bids)
                     now, true)
            | _, _ =>
                (OrderBook.mk (OrderBook.exchange self) (OrderBook.symbol self)
                   sorted_asks sorted_bids (feed_timestamp data)
                   (OrderBook.mid_price self) (OrderBook.spread_pct self)
                   (OrderBook.depth sorted_asks) (OrderBook.depth sorted_bids)
                   now, true)
            end
        end
    end.
Proof.
  unfold_update.
  destruct (OrderBook.parse_levels pyfloat (feed_asks data)) as [pa | e];
    simpl; [| reflexivity].
  destruct (OrderBook.parse_levels pyfloat (feed_bids data)) as [pb | e];
    simpl; [| reflexivity].
  destruct (OrderBook.sort_levels false pa) as [|[best_ask ask_size] asks'];
    simpl; [reflexivity |].
  destruct (OrderBook.sort_levels true pb) as [|[best_bid bid_size] bids'];
    simpl; [reflexivity |].
  unfold truediv.
  destruct (Req_dec_T ((best_ask + best_bid) / 2) 0); reflexivity.
Qed.

(** X4.  Whether [update] accepts a record depends on the record alone, not
    on the stored state and not on the clock. *)
Theorem update_verdict_depends_on_record_only
    (pyfloat : string -> option R) (self other : OrderBook.t)
    (data : FeedRecord) (now later : R) :
  snd (OrderBook.update pyfloat self data now)
  = snd (OrderBook.update pyfloat other data later).
Proof.
  rewrite !update_eq.
  destruct (OrderBook.parse_levels pyfloat (feed_asks data)) as [pa | e];
    [| reflexivity].
  destruct (OrderBook.parse_levels pyfloat (feed_bids data)) as [pb | e];
    [| reflexivity].
  cbv zeta.
  destruct (OrderBook.sort_levels false pa) as [|[best_ask ask_size] asks'];
    [reflexivity |].
  destruct (OrderBook.sort_levels true pb) as [|[best_bid bid_size] bids'];
    [reflexivity |].
  destruct (Req_dec_T ((best_ask + best_bid) / 2) 0); reflexivity.
Qed.

(** X5.  Sending the same record again changes nothing: updating the state
    an update has left gives what the update gives on the original state at
    that later time. *)
Theorem update_replay_is_idempotent
    (pyfloat : string -> option R) (self : OrderBook.t)
    (data : FeedRecord) (now later : R) :
  OrderBook.update pyfloat (fst (OrderBook.update pyfloat self data now)) data later
  = OrderBook.update pyfloat self data later.
Proof.
  rewrite (update_eq pyfloat (fst _)), (update_eq pyfloat self data later),
    (update_eq pyfloat self data now).
  destruct (OrderBook.parse_levels pyfloat (feed_asks data)) as [pa | e];
    [| reflexivity].
  destruct (OrderBook.parse_levels pyfloat (feed_bids data)) as [pb | e];
    [| reflexivity].
  cbv zeta.
  destruct (OrderBook.sort_levels false pa) as [|[best_ask ask_size] asks'];
    [reflexivity |].
  destruct (OrderBook.sort_levels true pb) as [|[best_bid bid_size] bids'];
    [reflexivity |].
  destruct (Req_dec_T ((best_ask + best_bid) / 2) 0); reflexivity.
Qed.

Lemma py_sum_from (xs : list R) (start : R) :
  fold_left Rplus xs start = start + py_sum xs.
Proof.
  unfold py_sum. revert start.
  induction xs as [|x xs IH]; intros start; simpl; [lra |].
  rewrite (IH (start + x)), (IH (0 + x)). lra.
Qed.

Lemma py_sum_cons (x : R) (xs : list R) : py_sum (x :: xs) = x + py_sum xs.
Proof. unfold py_sum at 1. simpl. rewrite py_sum_from. lra. Qed.

Lemma py_sum_fold_right (xs : list R) : py_sum xs = fold_right Rplus 0 xs.
Proof.
  induction xs as [|x xs IH]; [reflexivity |].
  rewrite py_sum_cons, IH. reflexivity.
Qed.

Lemma py_sum_nonneg (xs : list R) : Forall (fun x => 0 <= x) xs -> 0 <= py_sum xs.
Proof.
  induction 1 as [|x xs Hx _ IH]; [unfold py_sum; simpl; lra |].
  rewrite py_sum_cons. lra.
Qed.

(** X7.  The depth of a side is the sum of its sizes when it has at most ten
    levels, levels past the tenth do not count, and the depth is not
    negative when no size of the first ten is. *)
Theorem depth_sums_first_ten_levels (levels extra : list (R * R)) :
  ((List.length levels <= 10)%nat ->
   OrderBook.depth levels = fold_right Rplus 0 (map snd levels))
  /\ ((10 <= List.length levels)%nat ->
      OrderBook.depth (levels ++ extra) = OrderBook.depth levels)
  /\ (Forall (fun level => 0 <= snd level) (firstn 10 levels) ->
      0 <= OrderBook.depth levels).
Proof.
  unfold OrderBook.depth. repeat split.
  - intros Hlen. rewrite firstn_all2 by exact Hlen. apply py_sum_fold_right.
  - intros Hlen. rewrite firstn_app.
    replace (10 - List.length levels)%nat with 0%nat by lia.
    simpl. now rewrite app_nil_r.
  - intros Hpos. apply py_sum_nonneg.
    rewrite Forall_map. exact Hpos.
Qed.

Lemma depth_sums_first_ten_levels_witness :
  OrderBook.depth [(101, 1); (102, 2)] = fold_right Rplus 0 [1; 2].
Proof.
  apply (proj1 (depth_sums_first_ten_levels [(101, 1); (102, 2)] [])).
  simpl. lia.
Defined.

(** ** Dictionaries and keyword arguments *)

Lemma dict_find_set {V : Type} (d : list (string * V)) (key : string) (v : V)
    (other : string) :
  dict_find (dict_set d key v) other
  = if String.eqb key other then Some v else dict_find d other.
Proof.
  induction d as [|[k0 v0] d IH]; simpl; [reflexivity |].
  destruct (String.eqb k0 key) eqn:E; simpl.
  - apply String.eqb_eq in E. subst k0.
    destruct (String.eqb key other); reflexivity.
  - rewrite IH. destruct (String.eqb k0 other) eqn:E2; [| reflexivity].
    destruct (String.eqb key other) eqn:E3; [| reflexivity].
    apply String.eqb_eq in E2, E3. subst. rewrite String.eqb_refl in E. discriminate.
Qed.

Lemma dict_find_app {V : Type} (d1 d2 : list (string * V)) (key : string) :
  dict_find (d1 ++ d2) key
  = match dict_find d1 key with
    | Some v => Some v
    | None => dict_find d2 key
    end.
Proof.
  induction d1 as [|[k v] d1 IH]; simpl; [reflexivity |].
  destruct (String.eqb k key); [reflexivity | exact IH].
Qed.

(** After [d.update(other)] a key holds the last value [other] gives it, and
    its value in [d] when [other] does not have it. *)
Lemma dict_find_update {V : Type} (other d : list (string * V)) (key : string) :
  dict_find (dict_update d other) key
  = match dict_find (rev other) key with
    | Some v => Some v
    | None => dict_find d key
    end.
Proof.
  unfold dict_update. revert d.
  induction other as [|[k v] other IH]; intros d; simpl; [reflexivity |].
  rewrite IH, dict_find_app, dict_find_set. simpl.
  destruct (dict_find (rev other) key); [reflexivity |].
  destruct (String.eqb k key); reflexivity.
Qed.

Lemma params_lookup (kwargs : list (string * R)) (key : string) (default : R) :
  dict_find AlmgrenChrissModel.default_params key = Some default ->
  dict_get (dict_update AlmgrenChrissModel.default_params kwargs) key
  = Ok (keyword kwargs key default).
Proof.
  intros H. unfold dict_get, keyword, dict_get_default.
  rewrite dict_find_update, H.
  destruct (dict_find (rev kwargs) key); reflexivity.
Qed.

(** ** More on AlmgrenChrissModel.calculate_impact *)

(** X8.  Keyword arguments replace the default [gamma], [eta] and [epsilon]
    (the last value passed for a key counts, other keys are ignored); the
    result is the fallback [0.001] when [eta] or [time_horizon] is zero, and
    the clamped sum of the temporary and permanent impact otherwise. *)
Theorem calculate_impact_with_keywords {np : NumPy}
    (sigma quantity price time_horizon : R) (kwargs : list (string * R)) :
  let gamma := keyword kwargs "gamma" 0.1 in
  let eta := keyword kwargs "eta" 0.01 in
  let epsilon := keyword kwargs "epsilon" 0.005 in
  AlmgrenChrissModel.calculate_impact sigma quantity price time_horizon kwargs
  = if Req_dec_T eta 0 then 0.001
    else if Req_dec_T time_horizon 0 then 0.001
    else py_min
           (py_max
              (epsilon * quantity / time_horizon
               + eta * quantity
                 * np_tanh (np_sqrt (gamma * sigma * sigma / (2 * eta))
                            * (time_horizon / py_max 0.01 quantity)))
              0)
           0.1.
Proof.
  intros gamma eta epsilon. unfold AlmgrenChrissModel.calculate_impact.
  rewrite (params_lookup kwargs "gamma" 0.1) by reflexivity.
  rewrite (params_lookup kwargs "eta" 0.01) by reflexivity.
  rewrite (params_lookup kwargs "epsilon" 0.005) by reflexivity.
  fold gamma eta epsilon. cbn [bind].
  destruct (Req_dec_T eta 0) as [Heta | Heta].
  - unfold truediv at 1.
    destruct (Req_dec_T (2 * eta) 0); [reflexivity | lra].
  - rewrite (truediv_nonzero _ (2 * eta)) by lra. cbn [bind].
    rewrite (truediv_nonzero _ (py_max 0.01 quantity))
      by (pose proof (py_max_ge_l 0.01 quantity); lra).
    cbn [bind]. unfold truediv.
    destruct (Req_dec_T time_horizon 0); reflexivity.
Qed.

(** ** More on SlippageModel.estimate *)

Lemma notional_nonneg (levels : list (R * R)) :
  Forall (fun level => 0 < fst level * snd level) levels -> 0 <= notional levels.
Proof.
  induction 1 as [|level rest Hlevel _ IH]; simpl; lra.
Qed.

Lemma walk_levels_from (levels : list (R * R)) :
  Forall (fun level => 0 < fst level * snd level) levels ->
  forall remaining_qty total_cost,
    (notional levels < remaining_qty ->
     SlippageModel.walk_levels levels remaining_qty total_cost
     = Ok (remaining_qty - notional levels, total_cost + notional levels))
    /\ (levels <> [] -> remaining_qty <= notional levels ->
        exists cost,
          SlippageModel.walk_levels levels remaining_qty total_cost = Ok (0, cost)).
Proof.
  induction 1 as [|[price size] rest Hlevel Hrest IH]; intros r t.
  - split; [| congruence]. intros _. simpl. apply f_equal, f_equal2; lra.
  - pose proof (notional_nonneg rest Hrest) as Hnn.
    unfold notional in *. cbn [SlippageModel.walk_levels fold_right fst snd] in *.
    destruct (Rle_dec r (price * size)) as [Hfit | Hmore].
    + split; [intros; lra |]. intros _ _.
      rewrite truediv_nonzero by lra. cbn [bind]. eauto.
    + destruct (IH (r - price * size) (t + price * size)) as [IHover IHfill].
      split.
      * intros Hover. rewrite IHover by lra. apply f_equal, f_equal2; lra.
      * intros _ Hfill. apply IHfill; [| lra].
        intros ->. simpl in Hfill. lra.
Qed.

Lemma walk_levels_beyond (levels : list (R * R)) (quantity : R) :
  Forall (fun level => 0 < fst level * snd level) levels ->
  notional levels < quantity ->
  SlippageModel.walk_levels levels quantity 0
  = Ok (quantity - notional levels, notional levels).
Proof.
  intros Hpos Hover.
  destruct (walk_levels_from levels Hpos quantity 0) as [Hwalk _].
  rewrite Hwalk by exact Hover. apply f_equal, f_equal2; lra.
Qed.

(** X11.  On a side whose levels all have a positive notional the depth walk
    never divides by zero: an order that fits in the book is filled
    completely, and a larger one consumes every level, leaving
    [quantity - notional] unfilled at a cost of [notional]. *)
Theorem walk_levels_fills_greedily (levels : list (R * R)) (quantity : R) :
  levels <> [] ->
  Forall (fun level => 0 < fst level * snd level) levels ->
  (quantity <= notional levels ->
   exists cost, SlippageModel.walk_levels levels quantity 0 = Ok (0, cost))
  /\ (notional levels < quantity ->
      SlippageModel.walk_levels levels quantity 0
      = Ok (quantity - notional levels, notional levels)).
Proof.
  intros Hne Hpos.
  destruct (walk_levels_from levels Hpos quantity 0) as [_ Hfill].
  split.
  - now apply Hfill.
  - now apply walk_levels_beyond.
Qed.

Lemma walk_levels_fills_greedily_witness :
  SlippageModel.walk_levels [(101, 1); (102, 2)] 1000 0
  = Ok (1000 - notional [(101, 1); (102, 2)], notional [(101, 1); (102, 2)]).
Proof.
  apply (walk_levels_fills_greedily [(101, 1); (102, 2)] 1000).
  - discriminate.
  - repeat constructor; simpl; lra.
  - simpl. lra.
Defined.

Lemma last_cons {A : Type} (l : list A) (x default : A) :
  last (x :: l) default = last l x.
Proof.
  revert x default. induction l as [|y l IH]; intros x default; [reflexivity |].
  change (last (x :: y :: l) default) with (last (y :: l) default).
  now rewrite !IH.
Qed.

(** X12.  When the order is larger than the notional of the side it reads
    (all levels of positive notional), with [mid_price > 0] and a depth other
    than [-1], the remainder is priced at the last level plus one percent:
    [estimate] is the clamp of the slippage of that effective price plus the
    spread and depth adjustments. *)
Theorem estimate_beyond_visible_depth
    (orderbook : OrderBook.t) (quantity : R) (is_buy : bool) :
  let levels := if is_buy then OrderBook.asks orderbook else OrderBook.bids orderbook in
  let depth :=
    if is_buy then OrderBook.ask_depth orderbook else OrderBook.bid_depth orderbook in
  levels <> [] ->
  Forall (fun level => 0 < fst level * snd level) levels ->
  notional levels < quantity ->
  0 < OrderBook.mid_price orderbook ->
  depth + 1 <> 0 ->
  let last_price := fst (last levels (0, 0)) in
  let effective_price :=
    (notional levels + last_price * (quantity - notional levels) * 1.01) / quantity in
  let ratio := effective_price / OrderBook.mid_price orderbook in
  SlippageModel.estimate orderbook quantity is_buy
  = py_max
      (py_min
         ((if is_buy then ratio - 1 else 1 - ratio)
          + OrderBook.spread_pct orderbook * 0.1
          + 1 / (depth + 1) * 0.05)
         0.05)
      0.
Proof.
  intros levels depth Hne Hpos Hover Hmid Hdepth last_price effective_price ratio.
  pose proof (notional_nonneg levels Hpos) as Hnn.
  unfold SlippageModel.estimate. fold levels. fold depth.
  destruct levels as [|first others] eqn:Hlevels; [congruence |].
  rewrite (walk_levels_beyond (first :: others) quantity Hpos Hover). cbn [bind].
  destruct (Rlt_dec 0 (quantity - notional (first :: others))); [| lra].
  destruct (Rlt_dec 0 quantity); [| lra].
  rewrite truediv_nonzero by lra. cbn [bind].
  destruct (Rlt_dec 0 (OrderBook.mid_price orderbook)); [| lra].
  rewrite truediv_nonzero by lra. cbn [bind].
  rewrite truediv_nonzero by exact Hdepth. cbn [bind try_except].
  subst ratio effective_price last_price.
  now rewrite last_cons.
Qed.

Lemma estimate_beyond_visible_depth_witness :
  SlippageModel.estimate (scenario_book "2025-05-01T00:00:00Z" 7) 1000 true
  = py_max
      (py_min
         ((notional [(101, 1); (102, 2)]
           + 102 * (1000 - notional [(101, 1); (102, 2)]) * 1.01) / 1000 / 100.5 - 1
          + 200 / 201 * 0.1 + 1 / (3 + 1) * 0.05)
         0.05)
      0.
Proof.
  apply (estimate_beyond_visible_depth (scenario_book "2025-05-01T00:00:00Z" 7)
           1000 true).
  - discriminate.
  - repeat constructor; simpl; lra.
  - simpl. lra.
  - simpl. lra.
  - simpl. lra.
Defined.

(** X13.  On a non-empty side whose depth is [-1] the depth adjustment
    divides by zero and [estimate] returns the fallback [0.001], whatever the
    quantity. *)
Theorem estimate_falls_back_on_depth_minus_one
    (orderbook : OrderBook.t) (quantity : R) (is_buy : bool) :
  (if is_buy then OrderBook.asks orderbook else OrderBook.bids orderbook) <> [] ->
  (if is_buy then OrderBook.ask_depth orderbook else OrderBook.bid_depth orderbook)
  = -1 ->
  SlippageModel.estimate orderbook quantity is_buy = 0.001.
Proof.
  intros Hne Hdepth. unfold SlippageModel.estimate. rewrite Hdepth.
  destruct (if is_buy then OrderBook.asks orderbook else OrderBook.bids orderbook)
    as [|first others]; [congruence |].
  replace (-1 + 1) with 0 by lra. rewrite truediv_zero.
  destruct (SlippageModel.walk_levels (first :: others) quantity 0)
    as [[remaining_qty total_cost] | e]; cbn [bind try_except]; [| reflexivity].
  destruct (if Rlt_dec 0 quantity then _ else _); cbn [bind try_except];
    [| reflexivity].
  destruct (if Rlt_dec 0 (OrderBook.mid_price orderbook) then _ else _);
    reflexivity.
Qed.

Lemma estimate_falls_back_on_depth_minus_one_witness :
  SlippageModel.estimate
    (OrderBook.mk "OKX" "BTC-USDT-SWAP" [(101, -1)] [(100, 1)]
       "2025-05-01T00:00:00Z" 100.5 (200 / 201) (-1) 1 7)
    100 true
  = 0.001.
Proof.
  apply estimate_falls_back_on_depth_minus_one; [discriminate | reflexivity].
Defined.

(** ** MakerTakerModel.predict *)

Lemma py_max_pos_r a b : 0 < b -> 0 < py_max a b.
Proof. intros H. unfold py_max. destruct (Rlt_dec a b); lra. Qed.

(** No division of [predict] can raise and every weight is present: the
    handler is never reached. *)
Lemma predict_eq {np : NumPy} (orderbook : OrderBook.t) (quantity : R) :
  MakerTakerModel.predict orderbook quantity
  = py_max (py_min (1 / (1 + np_exp (- maker_logit orderbook quantity))) 1) 0.
Proof.
  unfold MakerTakerModel.predict, maker_logit.
  rewrite truediv_nonzero
    by (pose proof (py_max_pos_r
                      (OrderBook.ask_depth orderbook + OrderBook.bid_depth orderbook)
                      0.001 ltac:(lra)); lra).
  cbn [bind].
  rewrite truediv_nonzero
    by (pose proof (py_max_pos_r (OrderBook.bid_depth orderbook) 0.00001 ltac:(lra));
        lra).
  reflexivity.
Qed.

(** X14.  [predict] never takes its fallback: no division of it can raise
    and every weight is present, so for every order book and quantity it is
    the sigmoid of the logit passed through [max(min(., 1), 0)], whatever
    NumPy computes. *)
Theorem predict_is_clamped_sigmoid {np : NumPy}
    (orderbook : OrderBook.t) (quantity : R) :
  MakerTakerModel.predict orderbook quantity
  = py_max (py_min (1 / (1 + np_exp (- maker_logit orderbook quantity))) 1) 0.
Proof. apply predict_eq. Qed.

(** ** More on FeeCalculator.calculate *)

Lemma calculate_eq (fee_tier : string) (quantity maker_proportion : R) :
  FeeCalculator.calculate fee_tier quantity maker_proportion
  = quantity * (fst (rates fee_tier) * maker_proportion
                + snd (rates fee_tier) * (1 - maker_proportion)).
Proof.
  unfold FeeCalculator.calculate, rates. rewrite default_tier_present. reflexivity.
Qed.

(** X17.  A tier that is not in the table is charged the VIP0 rates. *)
Theorem calculate_unknown_tier_uses_vip0
    (fee_tier : string) (quantity maker_proportion : R) :
  dict_find FeeCalculator.fee_tiers fee_tier = None ->
  FeeCalculator.calculate fee_tier quantity maker_proportion
  = FeeCalculator.calculate "VIP0" quantity maker_proportion
  /\ FeeCalculator.calculate fee_tier quantity maker_proportion
     = quantity * (0.0008 * maker_proportion + 0.0010 * (1 - maker_proportion)).
Proof.
  intros H. rewrite !calculate_eq. unfold rates, dict_get_default. rewrite H.
  split; reflexivity.
Qed.

Lemma calculate_unknown_tier_uses_vip0_witness :
  FeeCalculator.calculate "VIP9" 100 0.5 = FeeCalculator.calculate "VIP0" 100 0.5.
Proof.
  apply (calculate_unknown_tier_uses_vip0 "VIP9" 100 0.5). reflexivity.
Defined.

(** ** More on PerformanceTracker *)

Lemma push_nonpositive_window (w : Z) (x : R) :
  (w <= 0)%Z -> PerformanceTracker.push w [] x = [].
Proof.
  intros Hw. unfold PerformanceTracker.push. simpl.
  destruct (Z.gtb_spec 1 w); [reflexivity | lia].
Qed.

(** X19.  A tracker built with a window size of zero or less keeps nothing:
    after any calls both rolling sequences are empty. *)
Theorem tracker_with_nonpositive_window_stays_empty
    (w : Z) (created : R) (calls : list tracker_call) :
  (w <= 0)%Z ->
  PerformanceTracker.processing_times
    (run_calls (PerformanceTracker.init w created) calls) = []
  /\ PerformanceTracker.update_times
       (run_calls (PerformanceTracker.init w created) calls) = [].
Proof.
  intros Hw. unfold PerformanceTracker.init.
  generalize created as last. unfold run_calls.
  induction calls as [|c calls IH]; intros last; simpl; [auto |].
  destruct c as [duration_ms | now]; simpl.
  - unfold PerformanceTracker.track_processing. simpl.
    rewrite push_nonpositive_window by exact Hw. apply IH.
  - unfold PerformanceTracker.track_update. simpl.
    rewrite push_nonpositive_window by exact Hw. apply IH.
Qed.

Lemma tracker_with_nonpositive_window_stays_empty_witness :
  PerformanceTracker.processing_times
    (run_calls (PerformanceTracker.init 0 0) [TrackProcessing 4; TrackUpdate 1]) = [].
Proof.
  apply (tracker_with_nonpositive_window_stays_empty 0 0
           [TrackProcessing 4; TrackUpdate 1]).
  lia.
Defined.

(** X20.  [get_metrics] does not divide by zero on empty windows: without
    processing samples the average processing time is [0]; without update
    intervals the average interval is [0] and the updates per second are
    [1000]. *)
Theorem get_metrics_without_samples (self : PerformanceTracker.t) :
  let '(avg_processing, avg_update, updates_per_second) :=
    PerformanceTracker.get_metrics self in
  (PerformanceTracker.processing_times self = [] -> avg_processing = 0)
  /\ (PerformanceTracker.update_times self = [] ->
      avg_update = 0 /\ updates_per_second = 1000).
Proof.
  cbv beta iota zeta delta [PerformanceTracker.get_metrics].
  assert (Hempty : py_sum [] / py_max (INR (@List.length R [])) 1 = 0).
  { unfold py_sum, py_max. simpl. decide_reals; lra. }
  split; [intros ->; exact Hempty |].
  intros ->. rewrite Hempty. split; [reflexivity |].
  unfold py_max. decide_reals; lra.
Qed.

Lemma get_metrics_without_samples_witness :
  PerformanceTracker.get_metrics (PerformanceTracker.init 100 0) = (0, 0, 1000).
Proof.
  pose proof (get_metrics_without_samples (PerformanceTracker.init 100 0)) as H.
  destruct (PerformanceTracker.get_metrics (PerformanceTracker.init 100 0))
    as [[avg_processing avg_update] updates_per_second].
  destruct H as (Ha & Hb). rewrite (Ha eq_refl).
  destruct (Hb eq_refl) as [-> ->]. reflexivity.
Defined.

(** ** More on TradeSimulator.simulate *)

(** [simulate] by cases on the order book it reads. *)
Lemma simulate_cases {np : NumPy} (self : TradeSimulator.t)
    (exchange symbol order_type : string) (quantity volatility : R)
    (fee_tier : string) (start_time end_time : R) (now_iso : string) :
  (TradeSimulator.orderbook self = None
   /\ TradeSimulator.simulate self exchange symbol order_type quantity volatility
        fee_tier start_time end_time now_iso
      = (self, Error "No orderbook data available"))
  \/ (exists book,
        TradeSimulator.orderbook self = Some book
        /\ OrderBook.mid_price book = 0
        /\ TradeSimulator.simulate self exchange symbol order_type quantity
             volatility fee_tier start_time end_time now_iso
           = (self, Error "float division by zero"))
  \/ (exists book c,
        TradeSimulator.orderbook self = Some book
        /\ OrderBook.mid_price book <> 0
        /\ TradeSimulator.simulate self exchange symbol order_type quantity
             volatility fee_tier start_time end_time now_iso
           = (TradeSimulator.mk (Some book)
                (PerformanceTracker.track_processing
                   (TradeSimulator.performance_tracker self)
                   ((end_time - start_time) * 1000)),
              Estimate c)
        /\ expected_slippage c = SlippageModel.estimate book quantity true
        /\ maker_taker_proportion c = MakerTakerModel.predict book quantity
        /\ expected_fees c
           = FeeCalculator.calculate fee_tier quantity
               (MakerTakerModel.predict book quantity)
        /\ market_impact c
           = AlmgrenChrissModel.calculate_impact volatility
               (quantity / OrderBook.mid_price book) (OrderBook.mid_price book) 1.0 []
        /\ net_cost c
           = quantity * expected_slippage c + expected_fees c
             + quantity * market_impact c
        /\ internal_latency c = (end_time - start_time) * 1000
        /\ estimate_timestamp c = now_iso).
Proof.
  destruct (TradeSimulator.orderbook self) as [book |] eqn:Hbook.
  - right. destruct (Req_dec_T (OrderBook.mid_price book) 0) as [Hmid | Hmid].
    + left. exists book. repeat split; auto.
      unfold TradeSimulator.simulate. rewrite Hbook, Hmid, truediv_zero. reflexivity.
    + right. eexists book, _. split; [reflexivity |]. split; [exact Hmid |].
      split; [now apply simulate_succeeds |].
      cbn. repeat split.
  - left. split; [reflexivity |].
    unfold TradeSimulator.simulate. now rewrite Hbook.
Qed.

(** X22.  [simulate] never touches the order book, the update intervals or
    the last update time.  When it returns an error the simulator is as it
    was; when it returns an estimate, exactly that estimate's latency,
    [(end - start) * 1000], has been pushed to the processing window. *)
Theorem simulate_records_latency_on_success_only {np : NumPy}
    (self : TradeSimulator.t)
    (exchange symbol order_type : string) (quantity volatility : R)
    (fee_tier : string) (start_time end_time : R) (now_iso : string) :
  let outcome :=
    TradeSimulator.simulate self exchange symbol order_type quantity volatility
      fee_tier start_time end_time now_iso in
  let tracker := TradeSimulator.performance_tracker self in
  let tracker' := TradeSimulator.performance_tracker (fst outcome) in
  TradeSimulator.orderbook (fst outcome) = TradeSimulator.orderbook self
  /\ PerformanceTracker.window_size tracker' = PerformanceTracker.window_size tracker
  /\ PerformanceTracker.update_times tracker' = PerformanceTracker.update_times tracker
  /\ PerformanceTracker.last_timestamp tracker'
     = PerformanceTracker.last_timestamp tracker
  /\ match snd outcome with
     | Error _ => fst outcome = self
     | Estimate c =>
         internal_latency c = (end_time - start_time) * 1000
         /\ PerformanceTracker.processing_times tracker'
            = PerformanceTracker.push (PerformanceTracker.window_size tracker)
                (PerformanceTracker.processing_times tracker) (internal_latency c)
     end.
Proof.
  cbv zeta.
  destruct (simulate_cases self exchange symbol order_type quantity volatility
              fee_tier start_time end_time now_iso)
    as [(_ & E) | [(book & _ & _ & E)
                  | (book & c & Hbook & _ & E & _ & _ & _ & _ & _ & Hl & _)]];
    rewrite E; cbn [fst snd].
  - repeat split.
  - repeat split.
  - rewrite Hbook, Hl. cbn. repeat split.
Qed.

(** X23.  [simulate] returns an estimate exactly when the simulator has an
    order book whose [mid_price] is not zero; no other input makes it fail. *)
Theorem simulate_succeeds_iff {np : NumPy} (self : TradeSimulator.t)
    (exchange symbol order_type : string) (quantity volatility : R)
    (fee_tier : string) (start_time end_time : R) (now_iso : string) :
  (exists c,
      snd (TradeSimulator.simulate self exchange symbol order_type quantity
             volatility fee_tier start_time end_time now_iso) = Estimate c)
  <-> (exists book,
          TradeSimulator.orderbook self = Some book
          /\ OrderBook.mid_price book <> 0).
Proof.
  destruct (simulate_cases self exchange symbol order_type quantity volatility
              fee_tier start_time end_time now_iso)
    as [(Hnone & E) | [(book & Hbook & Hmid & E)
                      | (book & c & Hbook & Hmid & E & _)]];
    rewrite E; cbn [snd]; split.
  - intros (c & H). discriminate.
  - intros (book & H & _). congruence.
  - intros (c & H). discriminate.
  - intros (book' & H & Hnz). congruence.
  - intros _. eauto.
  - intros _. eauto.
Qed.

(** ** The feed loop *)

Lemma parse_levels_nil pyfloat levels :
  OrderBook.parse_levels pyfloat levels = Ok [] -> levels = [].
Proof.
  destruct levels as [|[price size] rest]; [reflexivity |].
  simpl. unfold bind.
  destruct (OrderBook.float pyfloat price); try discriminate.
  destruct (OrderBook.float pyfloat size); try discriminate.
  destruct (OrderBook.parse_levels pyfloat rest); discriminate.
Qed.

(** X24.  Once bound, the simulator stays bound and reads the order book
    object of the server itself: after every message, accepted or rejected,
    it sees the state [update] has left. *)
Theorem bound_simulator_reads_what_update_left
    (pyfloat : string -> option R) (s : Server.t) (m : Server.Message) :
  Server.simulator_bound s = true ->
  Server.simulator_bound (Server.on_message pyfloat s m) = true
  /\ TradeSimulator.orderbook
       (Server.trade_simulator (Server.on_message pyfloat s m))
     = Some (fst (OrderBook.update pyfloat (Server.orderbook s)
                    (Server.data m) (Server.update_clock m))).
Proof.
  intros Hbound. unfold Server.on_message, Server.trade_simulator.
  destruct (OrderBook.update pyfloat (Server.orderbook s) (Server.data m)
              (Server.update_clock m)) as [book accepted].
  destruct accepted; cbn; rewrite ?Hbound; auto.
Qed.

Lemma bound_simulator_reads_what_update_left_witness :
  TradeSimulator.orderbook
    (Server.trade_simulator
       (Server.on_message decimal_float
          (Server.mk (scenario_book "2025-05-01T00:00:00Z" 7) true
             (PerformanceTracker.init 100 0))
          {| Server.data := half_bad_record;
             Server.update_clock := 8;
             Server.track_clock := 9 |}))
  = Some (fst (OrderBook.update decimal_float (scenario_book "2025-05-01T00:00:00Z" 7)
                 half_bad_record 8)).
Proof.
  apply (bound_simulator_reads_what_update_left decimal_float
           (Server.mk (scenario_book "2025-05-01T00:00:00Z" 7) true
              (PerformanceTracker.init 100 0))).
  reflexivity.
Defined.

(** X25.  When a bound simulator's feed sends a record whose tokens all
    parse and [update] rejects it, the order book is left with
    [mid_price = 0] and the next [simulate] fails with the division error. *)
Theorem rejected_parseable_record_breaks_simulate {np : NumPy}
    (pyfloat : string -> option R) (s : Server.t) (m : Server.Message)
    (exchange symbol order_type : string) (quantity volatility : R)
    (fee_tier : string) (start_time end_time : R) (now_iso : string) :
  Server.simulator_bound s = true ->
  ~ unparseable pyfloat (feed_asks (Server.data m)) ->
  ~ unparseable pyfloat (feed_bids (Server.data m)) ->
  snd (OrderBook.update pyfloat (Server.orderbook s) (Server.data m)
         (Server.update_clock m)) = false ->
  snd (TradeSimulator.simulate
         (Server.trade_simulator (Server.on_message pyfloat s m))
         exchange symbol order_type quantity volatility fee_tier
         start_time end_time now_iso)
  = Error "float division by zero".
Proof.
  intros Hbound Hasks Hbids Hrej.
  unfold Server.on_message, Server.trade_simulator. revert Hrej.
  destruct (update_cases pyfloat (Server.orderbook s) (Server.data m)
              (Server.update_clock m))
    as [Ha | pa Ha Hb | pa pb ? ? ? ? ? ? Ha Hb Hsa Hsb Hmid
        | pa pb ? ? ? ? ? ? Ha Hb Hsa Hsb Hmid | pa pb Ha Hb Hempty];
    cbn [snd]; try discriminate; try contradiction; intros _.
  cbn [Server.simulator_bound Server.orderbook Server.performance_tracker].
  rewrite Hbound. unfold TradeSimulator.simulate.
  cbn [TradeSimulator.orderbook OrderBook.mid_price].
  rewrite Hmid, truediv_zero. reflexivity.
Qed.

Lemma rejected_parseable_record_breaks_simulate_witness :
  snd (TradeSimulator.simulate (np := real_numpy)
         (Server.trade_simulator
            (Server.on_message decimal_float
               (Server.mk (scenario_book "2025-05-01T00:00:00Z" 7) true
                  (PerformanceTracker.init 100 0))
               {| Server.data := cancelling_record;
                  Server.update_clock := 8;
                  Server.track_clock := 9 |}))
         "OKX" "BTC-USDT" "market" 100 0.02 "VIP0" 10 11 "2025-05-01T00:00:04")
  = Error "float division by zero".
Proof.
  apply (rejected_parseable_record_breaks_simulate (np := real_numpy) decimal_float).
  - reflexivity.
  - intros (t & Hin & Hnone). simpl in Hin.
    destruct Hin as [<- | [<- | []]]; discriminate.
  - intros (t & Hin & Hnone). simpl in Hin.
    destruct Hin as [<- | [<- | []]]; discriminate.
  - cbn [Server.orderbook Server.data Server.update_clock].
    rewrite cancelling_update. reflexivity.
Defined.

(** X26.  After a message whose record has asks and bids and is accepted,
    [simulate] returns an estimate, whatever the state was before. *)
Theorem accepted_two_sided_record_enables_simulate {np : NumPy}
    (pyfloat : string -> option R) (s : Server.t) (m : Server.Message)
    (exchange symbol order_type : string) (quantity volatility : R)
    (fee_tier : string) (start_time end_time : R) (now_iso : string) :
  snd (OrderBook.update pyfloat (Server.orderbook s) (Server.data m)
         (Server.update_clock m)) = true ->
  feed_asks (Server.data m) <> [] ->
  feed_bids (Server.data m) <> [] ->
  exists c,
    snd (TradeSimulator.simulate
           (Server.trade_simulator (Server.on_message pyfloat s m))
           exchange symbol order_type quantity volatility fee_tier
           start_time end_time now_iso)
    = Estimate c.
Proof.
  intros Hacc Hasks Hbids.
  unfold Server.on_message, Server.trade_simulator. revert Hacc.
  destruct (update_cases pyfloat (Server.orderbook s) (Server.data m)
              (Server.update_clock m))
    as [Ha | pa Ha Hb | pa pb ? ? ? ? ? ? Ha Hb Hsa Hsb Hmid
        | pa pb ? ? ? ? ? ? Ha Hb Hsa Hsb Hmid | pa pb Ha Hb Hempty];
    cbn [snd]; try discriminate; intros _.
  - cbn [Server.simulator_bound Server.orderbook Server.performance_tracker].
    eexists. erewrite simulate_succeeds; [reflexivity | reflexivity | exact Hmid].
  - exfalso. destruct Hempty as [-> | ->].
    + apply parse_levels_nil in Ha. contradiction.
    + apply parse_levels_nil in Hb. contradiction.
Qed.

Lemma accepted_two_sided_record_enables_simulate_witness :
  exists c,
    snd (TradeSimulator.simulate (np := real_numpy)
           (Server.trade_simulator
              (Server.on_message decimal_float (Server.init 0)
                 {| Server.data := scenario_record "2025-05-01T00:00:00Z";
                    Server.update_clock := 8;
                    Server.track_clock := 9 |}))
           "OKX" "BTC-USDT" "market" 100 0.02 "VIP0" 10 11 "2025-05-01T00:00:04")
    = Estimate c.
Proof.
  apply (accepted_two_sided_record_enables_simulate (np := real_numpy) decimal_float).
  - cbn [Server.orderbook Server.data Server.update_clock Server.init].
    rewrite scenario_update. reflexivity.
  - discriminate.
  - discriminate.
Defined.

Lemma push_length (l : list R) (x : R) :
  (List.length l <= 100)%nat ->
  List.length (PerformanceTracker.push 100 l x) = Nat.min 100 (List.length l + 1).
Proof.
  intros Hlen. unfold PerformanceTracker.push.
  assert (Htl : List.length (tl (l ++ [x])) = List.length l)
    by (destruct l; cbn [app tl List.length]; rewrite ?length_app;
        cbn [List.length]; lia).
  rewrite length_app. cbn [List.length].
  destruct (Z.gtb_spec (Z.of_nat (List.length l + 1)) 100).
  - rewrite Htl. lia.
  - rewrite length_app. cbn [List.length]. lia.
Qed.

Lemma on_message_tracker pyfloat (s : Server.t) (m : Server.Message) :
  let accepted :=
    snd (OrderBook.update pyfloat (Server.orderbook s) (Server.data m)
           (Server.update_clock m)) in
  let tracker := Server.performance_tracker s in
  let tracker' := Server.performance_tracker (Server.on_message pyfloat s m) in
  PerformanceTracker.window_size tracker' = PerformanceTracker.window_size tracker
  /\ PerformanceTracker.processing_times tracker'
     = PerformanceTracker.processing_times tracker
  /\ PerformanceTracker.update_times tracker'
     = if accepted then
         PerformanceTracker.push (PerformanceTracker.window_size tracker)
           (PerformanceTracker.update_times tracker)
           (Server.track_clock m - PerformanceTracker.last_timestamp tracker)
       else PerformanceTracker.update_times tracker.
Proof.
  unfold Server.on_message.
  destruct (OrderBook.update pyfloat (Server.orderbook s) (Server.data m)
              (Server.update_clock m)) as [book accepted].
  destruct accepted; cbn; auto.
Qed.

Lemma run_tracks_accepted pyfloat (feed : list Server.Message) :
  forall s,
    PerformanceTracker.window_size (Server.performance_tracker s) = 100%Z ->
    (List.length (PerformanceTracker.update_times (Server.performance_tracker s))
     <= 100)%nat ->
    let tracker' := Server.performance_tracker (Server.run pyfloat s feed) in
    PerformanceTracker.processing_times tracker'
    = PerformanceTracker.processing_times (Server.performance_tracker s)
    /\ List.length (PerformanceTracker.update_times tracker')
       = Nat.min 100
           (List.length (PerformanceTracker.update_times (Server.performance_tracker s))
            + accepted_count (Server.verdicts pyfloat s feed)).
Proof.
  unfold accepted_count.
  induction feed as [|m feed IH]; intros s Hw Hlen.
  - cbn [Server.run fold_left Server.verdicts filter List.length].
    split; [reflexivity | lia].
  - change (Server.run pyfloat s (m :: feed))
      with (Server.run pyfloat (Server.on_message pyfloat s m) feed).
    cbn [Server.verdicts].
    destruct (on_message_tracker pyfloat s m) as (Hw' & Hp' & Hu').
    rewrite Hw in *.
    set (s' := Server.on_message pyfloat s m) in *.
    destruct (snd (OrderBook.update pyfloat (Server.orderbook s) (Server.data m)
                     (Server.update_clock m))) eqn:Hacc;
      cbn [filter List.length].
    + assert (Hlen' : List.length (PerformanceTracker.update_times
                                     (Server.performance_tracker s'))
                      = Nat.min 100
                          (List.length (PerformanceTracker.update_times
                                          (Server.performance_tracker s)) + 1))
        by (rewrite Hu'; now apply push_length).
      destruct (IH s') as [IHp IHu]; [exact Hw' | lia |].
      split; [now rewrite IHp |]. rewrite IHu, Hlen'. lia.
    + destruct (IH s') as [IHp IHu]; [exact Hw' | rewrite Hu'; exact Hlen |].
      split; [now rewrite IHp |]. rewrite IHu, Hu'. reflexivity.
Qed.

Lemma some_accepted_iff (verdicts : list bool) :
  existsb (fun accepted => accepted) verdicts = true
  <-> (0 < accepted_count verdicts)%nat.
Proof.
  unfold accepted_count.
  induction verdicts as [|v vs IH]; cbn [existsb filter List.length];
    [split; [discriminate | lia] |].
  destruct v; cbn [orb List.length]; [split; [lia | reflexivity] | exact IH].
Qed.

(** X27.  Along a feed, starting from the fresh server, the simulator is
    bound exactly when some update has been accepted, the update window
    holds one interval per accepted update (at most its 100 entries), and the
    processing window stays empty. *)
Theorem feed_binds_and_tracks_accepted_updates
    (pyfloat : string -> option R) (created : R) (feed : list Server.Message) :
  let final := Server.run pyfloat (Server.init created) feed in
  let accepted := accepted_count (Server.verdicts pyfloat (Server.init created) feed) in
  (Server.simulator_bound final = true <-> (0 < accepted)%nat)
  /\ List.length (PerformanceTracker.update_times (Server.performance_tracker final))
     = Nat.min 100 accepted
  /\ PerformanceTracker.processing_times (Server.performance_tracker final) = [].
Proof.
  intros final accepted. subst final accepted.
  destruct (run_tracks_accepted pyfloat feed (Server.init created))
    as [Hp Hu]; [reflexivity | simpl; lia |].
  split; [| split; [exact Hu | exact Hp]].
  rewrite run_simulator_bound. cbn [Server.simulator_bound Server.init orb].
  apply some_accepted_iff.
Qed.

(** ** The endpoint simulate_trade *)

(** X28.  The endpoint converts [quantity] and then [volatility] before it
    calls [simulate]: a string that [float] refuses gives the error payload
    with the message of its [ValueError], which ends in the [repr] of the
    string, and leaves the simulator as it is,
    also when no order book is bound; when both convert, the response is that
    of [simulate] on the values, absent keys taking their defaults. *)
Theorem simulate_trade_converts_then_simulates {np : NumPy}
    (pyfloat : string -> option R) (repr : string -> string)
    (simulator : TradeSimulator.t)
    (params : SimulateParams) (start_time end_time : R) (now_iso : string) :
  let quantity := get_param (param_quantity params) (JsonNumber 100) in
  let volatility := get_param (param_volatility params) (JsonNumber 0.02) in
  let response :=
    simulate_trade pyfloat repr simulator params start_time end_time now_iso in
  let refusal token :=
    String.append "could not convert string to float: " (repr token) in
  (forall token,
      quantity = JsonString token -> pyfloat token = None ->
      response = (simulator, Error (refusal token)))
  /\ (forall q token,
        float_of_scalar pyfloat quantity = Ok q ->
        volatility = JsonString token -> pyfloat token = None ->
        response = (simulator, Error (refusal token)))
  /\ (forall q v,
        float_of_scalar pyfloat quantity = Ok q ->
        float_of_scalar pyfloat volatility = Ok v ->
        response
        = TradeSimulator.simulate simulator
            (get_param (param_exchange params) "OKX")
            (get_param (param_symbol params) "BTC-USDT")
            (get_param (param_orderType params) "market")
            q v (get_param (param_feeTier params) "VIP0")
            start_time end_time now_iso).
Proof.
  intros quantity volatility response refusal. subst response refusal.
  unfold simulate_trade, simulate_arguments. fold quantity volatility.
  repeat split.
  - intros token -> Hnone. cbn [float_of_scalar]. unfold OrderBook.float.
    rewrite Hnone. reflexivity.
  - intros q token -> Hv Hnone. rewrite Hv. cbn [bind float_of_scalar].
    unfold OrderBook.float. rewrite Hnone. reflexivity.
  - intros q v -> ->. reflexivity.
Qed.

Lemma simulate_trade_converts_then_simulates_witness :
  simulate_trade (np := real_numpy) decimal_float
    (fun token => String.append "'" (String.append token "'"))
    (TradeSimulator.init 0)
    {| param_exchange := None; param_symbol := None; param_orderType := None;
       param_quantity := Some (JsonString "a lot");
       param_volatility := None; param_feeTier := None |}
    1 2 "2025-05-01T00:00:02"
  = (TradeSimulator.init 0,
     Error "could not convert string to float: 'a lot'").
Proof.
  apply (proj1 (simulate_trade_converts_then_simulates (np := real_numpy)
                  decimal_float
                  (fun token => String.append "'" (String.append token "'"))
                  (TradeSimulator.init 0) _ 1 2
                  "2025-05-01T00:00:02") "a lot");
    reflexivity.
Defined.

(** X29.  The websocket endpoint answers only messages of type
    ["simulate_trade"], and for those it does what the HTTP endpoint does on
    the same parameters: the same simulator afterwards and the same estimate
    or [simulate] error as data; only a failed conversion is reported as an
    error message instead. *)
Theorem websocket_endpoint_agrees_with_http {np : NumPy}
    (pyfloat : string -> option R) (repr : string -> string)
    (simulator : TradeSimulator.t)
    (message : ClientMessage) (start_time end_time : R) (now_iso : string) :
  let reply :=
    handle_client_message pyfloat repr simulator message start_time end_time
      now_iso in
  let params := get_param (message_params message) no_params in
  let http :=
    simulate_trade pyfloat repr simulator params start_time end_time now_iso in
  (message_type message <> Some "simulate_trade" -> reply = (simulator, NoReply))
  /\ (message_type message = Some "simulate_trade" ->
      fst reply = fst http
      /\ match simulate_arguments pyfloat params with
         | Ok _ => snd reply = SimulationReply (snd http)
         | Raise e =>
             snd reply = ErrorReply (error_text repr e)
             /\ snd http = Error (error_text repr e)
         end).
Proof.
  cbv zeta. unfold handle_client_message, simulate_trade. split.
  - intros Hother. destruct (message_type message) as [kind |]; [| reflexivity].
    destruct (String.eqb_spec kind "simulate_trade") as [-> | _];
      [congruence | reflexivity].
  - intros ->. cbn [String.eqb Ascii.eqb Bool.eqb].
    destruct (simulate_arguments pyfloat
                (get_param (message_params message) no_params))
      as [[[[[[exchange symbol] order_type] quantity] volatility] fee_tier] | e].
    + destruct (TradeSimulator.simulate simulator exchange symbol order_type
                  quantity volatility fee_tier start_time end_time now_iso).
      split; reflexivity.
    + repeat split.
Qed.

Lemma websocket_endpoint_agrees_with_http_witness :
  handle_client_message (np := real_numpy) decimal_float
    (fun token => String.append "'" (String.append token "'"))
    (TradeSimulator.init 0)
    {| message_type := Some "ping"; message_params := None |}
    1 2 "2025-05-01T00:00:02"
  = (TradeSimulator.init 0, NoReply).
Proof.
  apply (proj1 (websocket_endpoint_agrees_with_http (np := real_numpy)
                  decimal_float
                  (fun token => String.append "'" (String.append token "'"))
                  (TradeSimulator.init 0)
                  {| message_type := Some "ping"; message_params := None |}
                  1 2 "2025-05-01T00:00:02")).
  discriminate.
Defined.

(** ** ConnectionManager *)

(** X30.  [disconnect] of a websocket that is not connected raises, and
    undoes the [connect] of such a websocket; for a connected one it drops
    its first occurrence and keeps the others in their order. *)
Theorem disconnect_removes_first_occurrence
    (self : ConnectionManager.t) (websocket : nat) :
  (~ In websocket self ->
   ConnectionManager.disconnect self websocket = None
   /\ ConnectionManager.disconnect (ConnectionManager.connect self websocket) websocket
      = Some self)
  /\ (In websocket self ->
      exists before after,
        self = before ++ websocket :: after
        /\ ~ In websocket before
        /\ ConnectionManager.disconnect self websocket = Some (before ++ after)).
Proof.
  unfold ConnectionManager.disconnect, ConnectionManager.connect.
  induction self as [|y rest [IHabsent IHpresent]]; split.
  - intros _. split; [reflexivity |]. simpl. now rewrite Nat.eqb_refl.
  - intros [].
  - intros Hnot. simpl in Hnot.
    assert (Hy : y <> websocket) by tauto.
    assert (Hrest : ~ In websocket rest) by tauto.
    destruct (IHabsent Hrest) as [E1 E2].
    cbn [ConnectionManager.list_remove app].
    apply Nat.eqb_neq in Hy. rewrite Hy, E1, E2. split; reflexivity.
  - intros Hin. cbn [ConnectionManager.list_remove].
    destruct (Nat.eqb_spec y websocket) as [-> | Hy].
    + exists [], rest. repeat split. intros [].
    + destruct Hin as [Hx | Hin]; [contradiction |].
      destruct (IHpresent Hin) as (before & after & -> & Hnot & E).
      rewrite E. exists (y :: before), after. repeat split.
      intros [Hx | Hx]; [contradiction | exact (Hnot Hx)].
Qed.

Lemma disconnect_removes_first_occurrence_witness :
  ConnectionManager.disconnect
    (ConnectionManager.connect [4%nat; 7%nat] 9%nat) 9%nat
  = Some [4%nat; 7%nat].
Proof.
  apply (proj1 (disconnect_removes_first_occurrence [4%nat; 7%nat] 9%nat)).
  simpl. intros [H | [H | []]]; discriminate.
Defined.
